(** * A shallow embedding of the clip planner of [App.py]
    (YT-screenshot-Trimmer): [sanitize_name], [parse_timecode],
    [trim_clip], the row loop and the zip step of [process_excel_to_zip],
    the metadata cells of [build_report_from_urls] and the URL list read
    by the report tab.

    Python text ([str]) is modelled as [list ascii]; the model works on
    ASCII text, where the NFKC normalisation done by [sanitize_name] is
    the identity.  Python exceptions are the constructors of [exn]. *)

From Stdlib Require Import Ascii String List ZArith QArith Qminmax Bool Lia.
Import ListNotations.
Open Scope Z_scope.

Abbreviation pystr := (list ascii).

(** A Python string literal. *)
Definition lit (s : string) : pystr := list_ascii_of_string s.

(** Python exceptions that the modelled code can raise. *)
Inductive exn :=
| ValueError          (* int() of a non-numeric token; python-docx text *)
| FileNotFoundError   (* zipfile.write / os.stat of a missing file *)
| OSError             (* VideoFileClip of an unreadable media file *)
| OverflowError       (* float() of an integer beyond the doubles *)
| FileExistsError     (* os.makedirs on a path that is a file *)
| NotADirectoryError  (* os.makedirs below a path that is a file *)
| ExtractorError.     (* yt-dlp metadata fetch or download failure *)

(** The outcome of a Python call: a value, or a raised exception. *)
Inductive res (A : Type) :=
| Ok (a : A)
| Err (e : exn).
Arguments Ok {A} a.
Arguments Err {A} e.

(** ** Character classes of CPython restricted to ASCII *)

Definition is_digit (c : ascii) : bool :=
  (48 <=? nat_of_ascii c)%nat && (nat_of_ascii c <=? 57)%nat.

Definition digit_val (c : ascii) : Z := Z.of_nat (nat_of_ascii c - 48).

(** [str.isspace]: \t \n \x0b \x0c \r, \x1c .. \x1f and the space. *)
Definition is_space (c : ascii) : bool :=
  let n := nat_of_ascii c in
  ((9 <=? n) && (n <=? 13) || (28 <=? n) && (n <=? 32))%nat.

(** [str.isprintable]: the ASCII range from the space to the tilde. *)
Definition is_printable (c : ascii) : bool :=
  let n := nat_of_ascii c in ((32 <=? n) && (n <=? 126))%nat.

Fixpoint lstrip_by (p : ascii -> bool) (l : pystr) : pystr :=
  match l with
  | [] => []
  | c :: r => if p c then lstrip_by p r else l
  end.

Definition rstrip_by (p : ascii -> bool) (l : pystr) : pystr :=
  rev (lstrip_by p (rev l)).

(** [s.strip()] *)
Definition strip (l : pystr) : pystr :=
  rstrip_by is_space (lstrip_by is_space l).

(** membership of a character in a Python string *)
Definition has (c : ascii) (l : pystr) : bool :=
  existsb (Ascii.eqb c) l.

(** [s.split(c)] for a one-character separator. *)
Fixpoint split_on (sep : ascii) (l : pystr) : list pystr :=
  match l with
  | [] => [[]]
  | c :: r =>
      if Ascii.eqb c sep then [] :: split_on sep r
      else match split_on sep r with
           | h :: t => (c :: h) :: t
           | [] => [[c]]
           end
  end.

(** [re.split(r'[/,]', s)]: split on any character of a class. *)
Fixpoint split_any (p : ascii -> bool) (l : pystr) : list pystr :=
  match l with
  | [] => [[]]
  | c :: r =>
      if p c then [] :: split_any p r
      else match split_any p r with
           | h :: t => (c :: h) :: t
           | [] => [[c]]
           end
  end.

(** [s.split(c, 1)] when [c in s]: the text before and after the first [c]. *)
Fixpoint split_first (sep : ascii) (l : pystr) : pystr * pystr :=
  match l with
  | [] => ([], [])
  | c :: r =>
      if Ascii.eqb c sep then ([], r)
      else let '(a, b) := split_first sep r in (c :: a, b)
  end.

(** ** [sanitize_name]  (App.py lines 30-37) *)

(** the character class of the [re.sub] call: backslash, slash, star,
    question mark, colon, double quote, angle brackets and bar *)
Definition forbidden (c : ascii) : bool :=
  has c (lit "\/*?:<>|") || Ascii.eqb c (ascii_of_nat 34).

Definition sanitize_name (name : pystr) : pystr :=
  match name with
  | [] => lit "Unknown"                                   (* if not name *)
  | _ =>
      let name := name in                                 (* NFKC: identity on ASCII *)
      let name := filter (fun c => negb (forbidden c)) name in   (* re.sub *)
      let name := rstrip_by (fun c => has c (lit ". ")) name in  (* rstrip(". ") *)
      let name := filter is_printable name in            (* isprintable filter *)
      match strip name with                               (* strip() or "Unknown" *)
      | [] => lit "Unknown"
      | r => r
      end
  end.

(** ** [int(s)] on a text: surrounding whitespace, an optional sign, and
    decimal digits with single underscores between digits. *)

Fixpoint digits_go (acc : Z) (l : pystr) : option Z :=
  match l with
  | [] => Some acc
  | c :: r =>
      if is_digit c then digits_go (acc * 10 + digit_val c) r
      else if Ascii.eqb c "_" then
        match r with
        | d :: r' => if is_digit d then digits_go (acc * 10 + digit_val d) r' else None
        | [] => None
        end
      else None
  end.

(** the default of [sys.get_int_max_str_digits()]: [int()] of a text with
    more digits raises ValueError *)
Definition max_str_digits : nat := 4300.

Definition digits (l : pystr) : option Z :=
  if (max_str_digits <? length (filter is_digit l))%nat then None else
  match l with
  | c :: r => if is_digit c then digits_go (digit_val c) r else None
  | [] => None
  end.

Definition py_int (s : pystr) : option Z :=
  match strip s with
  | c :: r =>
      if Ascii.eqb c "+" then digits r
      else if Ascii.eqb c "-" then option_map Z.opp (digits r)
      else digits (c :: r)
  | [] => None
  end.

Fixpoint map_int (ps : list pystr) : res (list Z) :=
  match ps with
  | [] => Ok []
  | p :: r =>
      match py_int p with
      | None => Err ValueError
      | Some v => match map_int r with Ok vs => Ok (v :: vs) | Err e => Err e end
      end
  end.

(** ** [parse_timecode]  (App.py lines 219-228) *)
Definition parse_timecode (tc : pystr) : res (option Z) :=
  let tc := map (fun c => if Ascii.eqb c "." then ":"%char else c) (strip tc) in
  match map_int (split_on ":" tc) with             (* [int(p) for p in tc.split(":")] *)
  | Err e => Err e
  | Ok [h] => Ok (Some h)
  | Ok [m; s] => Ok (Some (m * 60 + s))
  | Ok [h; m; s] => Ok (Some (h * 3600 + m * 60 + s))
  | Ok _ => Ok None
  end.



(** the first character of [l], if any, is not in the class [p] *)
Definition first_not (p : ascii -> bool) (l : pystr) : Prop :=
  match l with [] => True | c :: _ => p c = false end.

(** the last character of [l], if any, is not in the class [p] *)
Definition last_not (p : ascii -> bool) (l : pystr) : Prop :=
  match rev l with [] => True | c :: _ => p c = false end.

Definition dot_space (c : ascii) : bool := has c (lit ". ").
Definition allowed (c : ascii) : bool := negb (forbidden c).

(** the text left by the steps of [sanitize_name] before the fallback *)
Definition sanitize_steps (name : pystr) : pystr :=
  strip (filter is_printable (rstrip_by dot_space (filter allowed name))).

(** the number a decimal digit string denotes *)
Definition decimal (l : pystr) : Z :=
  fold_left (fun acc c => acc * 10 + digit_val c) l 0.

(** a non-empty string of decimal digits *)
Definition is_num (l : pystr) : Prop := l <> [] /\ forallb is_digit l = true.

(** the separator normalisation of [parse_timecode] *)
Definition colon_of_dot (c : ascii) : ascii := if Ascii.eqb c "." then ":"%char else c.

(** a timecode separator accepted by [parse_timecode] *)
Definition is_sep (c : ascii) : Prop := c = ":"%char \/ c = "."%char.

(** ** Paths  (posixpath, restricted to what the planner uses) *)

Definition peqb (a b : pystr) : bool :=
  if list_eq_dec Ascii.ascii_dec a b then true else false.

(** [os.path.join(a, b)] *)
Definition join (a b : pystr) : pystr :=
  if match b with c :: _ => Ascii.eqb c "/" | [] => false end then b
  else match rev a with
       | [] => b
       | c :: _ => if Ascii.eqb c "/" then a ++ b else a ++ "/"%char :: b
       end.

(** [os.path.basename(p)]: the text after the last slash *)
Definition basename (p : pystr) : pystr := rev (fst (split_first "/" (rev p))).

(** [os.path.dirname(p)]: the text up to the last slash, trailing slashes
    removed unless it is made of slashes only *)
Definition dirname (p : pystr) : pystr :=
  if has "/" p then
    let head := rev (snd (split_first "/" (rev p))) ++ ["/"%char] in
    if forallb (fun c => Ascii.eqb c "/") head then head
    else rstrip_by (fun c => Ascii.eqb c "/") head
  else [].

(** [os.path.splitext(name)[0]] for a name without a slash: the text
    before the last period, unless only periods precede it *)
Definition splitext_root (name : pystr) : pystr :=
  if has "." name then
    let before := snd (split_first "." (rev name)) in
    if existsb (fun c => negb (Ascii.eqb c ".")) before then rev before else name
  else name.

(** [str(n)] for a natural number *)
Fixpoint str_nat_aux (fuel n : nat) (acc : pystr) : pystr :=
  match fuel with
  | O => acc
  | S f =>
      let acc' := ascii_of_nat (48 + n mod 10)%nat :: acc in
      match (n / 10)%nat with
      | O => acc'
      | q => str_nat_aux f q acc'
      end
  end.

Definition py_str_nat (n : nat) : pystr := str_nat_aux (S n) n [].

(** ** Files and the monad of the planner *)

(** What a path holds: a media file of a given duration (seconds), any
    other file, or a directory. *)
Inductive content :=
| Media (duration : Q)
| Junk
| Dir.

(** The file system: what each existing path holds. *)
Definition fsys := pystr -> option content.

Definition fs_write (fs : fsys) (p : pystr) (c : content) : fsys :=
  fun q => if peqb q p then Some c else fs q.

Definition fs_remove (fs : fsys) (p : pystr) : fsys :=
  fun q => if peqb q p then None else fs q.

Definition fs_exists (fs : fsys) (p : pystr) : bool :=
  match fs p with Some _ => true | None => false end.

(** The state threaded through [process_excel_to_zip]: the files, the
    list [created_files], the number of [st.warning] calls, and two
    logs: every call of [trim_clip] and every output path computed at
    line 319 (the planned jobs). *)
Record st := mkst {
  st_fs : fsys;
  st_created : list pystr;
  st_warnings : nat;
  st_trims : list (pystr * Z * Z);
  st_jobs : list pystr
}.

Definition M (A : Type) := st -> res A * st.

Definition ret {A} (a : A) : M A := fun s => (Ok a, s).
Definition bind {A B} (m : M A) (k : A -> M B) : M B :=
  fun s => match m s with
           | (Ok a, s') => k a s'
           | (Err e, s') => (Err e, s')
           end.
Definition throw {A} (e : exn) : M A := fun s => (Err e, s).
Definition lift {A} (r : res A) : M A := fun s => (r, s).
Definition get : M st := fun s => (Ok s, s).
Definition put (s : st) : M unit := fun _ => (Ok tt, s).

Notation "'let*' x ':=' m 'in' k" := (bind m (fun x => k))
  (at level 200, x name, m at level 100, right associativity).

Definition modify (f : st -> st) : M unit := fun s => (Ok tt, f s).

Definition set_fs (fs : fsys) (s : st) : st :=
  mkst fs (st_created s) (st_warnings s) (st_trims s) (st_jobs s).
Definition add_created (p : pystr) (s : st) : st :=
  mkst (st_fs s) (st_created s ++ [p]) (st_warnings s) (st_trims s) (st_jobs s).
Definition warn (s : st) : st :=
  mkst (st_fs s) (st_created s) (S (st_warnings s)) (st_trims s) (st_jobs s).
Definition log_trim (t : pystr * Z * Z) (s : st) : st :=
  mkst (st_fs s) (st_created s) (st_warnings s) (st_trims s ++ [t]) (st_jobs s).
Definition log_job (p : pystr) (s : st) : st :=
  mkst (st_fs s) (st_created s) (st_warnings s) (st_trims s) (st_jobs s ++ [p]).

Definition exists_path (p : pystr) : M bool :=
  fun s => (Ok (fs_exists (st_fs s) p), s).

(** [try: m except Exception: st.warning(...)] *)
Definition try_warn (m : M unit) : M unit :=
  fun s => match m s with
           | (Ok tt, s') => (Ok tt, s')
           | (Err _, s') => (Ok tt, warn s')
           end.

(** [float(n)] for an integer [n]: the nearest double, ties to even
    (the magnitude is rounded to 53 significant bits), and OverflowError
    when that rounds to [2^1024] or more *)
Definition round_double (n : Z) : Z :=
  let k := Z.log2 n - 52 in
  if k <=? 0 then n else
  let q := Z.shiftr n k in
  let r := n - Z.shiftl q k in
  let half := Z.shiftl 1 (k - 1) in
  let q' := if (half <? r) || ((r =? half) && Z.odd q) then q + 1 else q in
  Z.shiftl q' k.

Definition py_float (n : Z) : option Q :=
  let m := round_double (Z.abs n) in
  if 2 ^ 1024 <=? m then None else Some (inject_Z (Z.sgn n * m)).

(** the parent directories of a path, outermost first: the texts before
    each slash but the leading one *)
Fixpoint parent_dirs (pre : pystr) (l : pystr) : list pystr :=
  match l with
  | [] => []
  | c :: r =>
      (if Ascii.eqb c "/" then match pre with [] => [] | _ => [rev pre] end else [])
      ++ parent_dirs (c :: pre) r
  end.

(** the missing parents below the innermost existing one (innermost
    first), and that existing parent *)
Fixpoint split_existing (fs : fsys) (rc : list pystr) : list pystr * option pystr :=
  match rc with
  | [] => ([], None)
  | q :: r =>
      if fs_exists fs q then ([], Some q)
      else let '(miss, top) := split_existing fs r in (q :: miss, top)
  end.

(** [os.makedirs(p, exist_ok=True)] *)
Definition makedirs (p : pystr) : M unit :=
  fun s =>
    let fs := st_fs s in
    let create miss :=
      (Ok tt, set_fs (fold_left (fun fs q => fs_write fs q Dir) (p :: miss) fs) s) in
    match fs p with
    | Some Dir => (Ok tt, s)
    | Some _ => (Err FileExistsError, s)
    | None =>
        let '(miss, top) := split_existing fs (rev (parent_dirs [] p)) in
        match top with
        | Some q => match fs q with
                    | Some Dir => create miss
                    | _ => (Err NotADirectoryError, s)
                    end
        | None => create miss
        end
    end.

(** ** [trim_clip]  (App.py lines 230-240)

    The written clip is recorded by its length [end_s - start_s]. *)
Definition trim_clip (input_file : pystr) (start_s end_s : Z) (output_file : pystr)
  : M bool :=
  let* _ := modify (log_trim (output_file, start_s, end_s)) in
  let* s := get in
  match st_fs s input_file with
  | Some (Media d) =>                                   (* VideoFileClip(input_file) *)
      match py_float start_s with
      | None => throw OverflowError
      | Some fs =>
      let start_s := Qmax 0 fs in                       (* max(0, float(start_s)) *)
      match py_float end_s with
      | None => throw OverflowError
      | Some fe =>
      let end_s := Qmin d fe in                         (* min(duration, float(end_s)) *)
      if Qle_bool end_s start_s then ret false          (* start_s >= end_s *)
      else let* _ := put (set_fs (fs_write (st_fs s) output_file
                                    (Media (end_s - start_s))) s) in
           ret true
      end
      end
  | _ => throw OSError
  end.

(** ** The row loop of [process_excel_to_zip]  (App.py lines 242-349) *)

(** A spreadsheet cell: missing (NaN), or a value given by its [str()]:
    [CStr] for a value whose truth value is [True], [CFalsy] for one
    whose truth value is [False] (such as the number 0). *)
Inductive cell :=
| CNaN
| CStr (s : pystr)
| CFalsy (s : pystr).

(** [str(cell)] *)
Definition cell_text (c : cell) : pystr :=
  match c with CNaN => lit "nan" | CStr s | CFalsy s => s end.

(** [pd.isna(cell)] *)
Definition is_nan (c : cell) : bool := match c with CNaN => true | _ => false end.

(** [bool(cell)]: NaN is a float, and true *)
Definition truthy (c : cell) : bool := match c with CFalsy _ => false | _ => true end.

(** The yt-dlp metadata of a video: the values of the keys "title",
    "uploader" and "channel" ([None] when absent). *)
Record info := mkinfo {
  i_title : option pystr;
  i_uploader : option pystr;
  i_channel : option pystr
}.

(** The collaborators of the planner: the metadata fetch and the download
    of yt-dlp ([None] when they raise; a download gives the extension and
    the duration of the saved video), and the directory made by
    [tempfile.mkdtemp]. *)
Record env := mkenv {
  e_meta : pystr -> option info;
  e_download : pystr -> option (pystr * Q);
  e_tmp_root : pystr
}.

(** Python's [a or b] on optional strings: the first non-empty one *)
Definition str_or (a : option pystr) (b : pystr) : pystr :=
  match a with Some ((_ :: _) as s) => s | _ => b end.

(** the class [[/,]] of the [re.split] call *)
Definition slash_comma (c : ascii) : bool := Ascii.eqb c "/" || Ascii.eqb c ",".

(** the label of a column in file names: [sanitize_name(col.split("(")[0].strip())] *)
Definition col_label (col : pystr) : pystr :=
  sanitize_name (strip (fst (split_first "(" col))).

(** the output file name built at line 318 *)
Definition filename (col_clean clean_channel clean_title : pystr) (n : nat) : pystr :=
  col_clean ++ "_"%char :: clean_channel ++ "_"%char :: clean_title ++
  lit "_part" ++ py_str_nat n ++ lit ".mp4".

Section Row.
Variables (video_path output_folder clean_channel clean_title : pystr).

(** one iteration of [for idxp, part in enumerate(parts)] (lines 310-326;
    [time.sleep] has no effect on the state) *)
Definition part_step (col : pystr) (idxp : nat) (part : pystr) : M unit :=
  if negb (has "-" part) then ret tt else
  let '(start_str, end_str) := split_first "-" part in
  let* ssec := lift (parse_timecode start_str) in
  let* esec := lift (parse_timecode end_str) in
  match ssec, esec with
  | Some a, Some b =>
      let col_clean := col_label col in
      let outpath := join output_folder
                       (filename col_clean clean_channel clean_title (idxp + 1)) in
      let* _ := modify (log_job outpath) in
      let* ex := exists_path outpath in
      if ex then ret tt
      else try_warn (let* _ := trim_clip video_path a b outpath in
                     modify (add_created outpath))
  | _, _ => ret tt
  end.

Fixpoint parts_loop (col : pystr) (idxp : nat) (parts : list pystr) : M unit :=
  match parts with
  | [] => ret tt
  | part :: rest =>
      let* _ := part_step col idxp part in
      parts_loop col (S idxp) rest
  end.

(** the body of [for col in columns[start_col_index:]] (lines 302-326) *)
Definition cell_step (col : pystr) (c : cell) : M unit :=
  if is_nan c then ret tt else
  let text := strip (cell_text c) in
  match text with
  | [] => ret tt
  | _ => if negb (has "-" text) then ret tt
         else parts_loop col 0 (split_any slash_comma text)
  end.

Fixpoint cols_loop (cols : list (pystr * cell)) : M unit :=
  match cols with
  | [] => ret tt
  | (col, c) :: rest => let* _ := cell_step col c in cols_loop rest
  end.

End Row.

(** the title and channel of a local file (lines 265-271) *)
Definition local_title_channel (columns : list pystr) (row : list cell) (video_path : pystr)
  : pystr * pystr :=
  let title := splitext_root (basename video_path) in
  let custom := if (1 <? length columns)%nat then nth 1 row CNaN else CNaN in
  let channel :=
    if truthy custom && negb (is_nan custom) then
      match strip (cell_text custom) with
      | [] => str_or (Some (basename (dirname video_path))) (lit "LocalFile")
      | ch => ch
      end
    else str_or (Some (basename (dirname video_path))) (lit "LocalFile") in
  (title, channel).

(** the title and channel of a remote video (lines 280-281) *)
Definition remote_title_channel (i : info) : pystr * pystr :=
  (match i_title i with Some t => t | None => lit "Untitled" end,
   str_or (i_uploader i) (str_or (i_channel i) (lit "Unknown"))).

(** one iteration of [for idx, row in df.iterrows()] (lines 256-333) *)
Definition row_step (E : env) (out_tmp : pystr) (columns : list pystr) (row : list cell)
  : M unit :=
  let source_identifier := strip (cell_text (nth 0 row CNaN)) in
  match source_identifier with
  | [] => ret tt
  | _ =>
    let* is_local_file := exists_path source_identifier in
    let resolved :=
      if is_local_file then Some (local_title_channel columns row source_identifier)
      else option_map remote_title_channel (e_meta E source_identifier) in
    match resolved with
    | None => modify warn                                (* metadata fetch failed *)
    | Some (title, channel) =>
      let clean_channel := sanitize_name channel in
      let clean_title := sanitize_name title in
      let folder_name := firstn 180 (clean_channel ++ "_"%char :: clean_title) in
      let output_folder := join out_tmp folder_name in
      let* _ := makedirs output_folder in
      let downloaded :=
        if is_local_file then Some (source_identifier, None)
        else match e_download E source_identifier with
             | None => None
             | Some (ext, d) =>
                 Some (join output_folder (lit "temp_video." ++ ext), Some d)
             end in
      match downloaded with
      | None => modify warn                              (* download failed *)
      | Some (video_path, saved) =>
        let* _ := match saved with
                  | Some d => let* s := get in
                              put (set_fs (fs_write (st_fs s) video_path (Media d)) s)
                  | None => ret tt
                  end in
        let start_col_index := if is_local_file then 2%nat else 1%nat in
        let* _ := cols_loop video_path output_folder clean_channel clean_title
                    (combine (skipn start_col_index columns) (skipn start_col_index row)) in
        (* cleanup downloaded video *)
        let* ex := exists_path video_path in
        if negb is_local_file && ex then
          let* s := get in
          match st_fs s video_path with
          | Some Dir => ret tt               (* os.remove raises; except: pass *)
          | _ => put (set_fs (fs_remove (st_fs s) video_path) s)
          end
        else ret tt
      end
    end
  end.

Fixpoint rows_loop (E : env) (out_tmp : pystr) (columns : list pystr)
  (rows : list (list cell)) : M unit :=
  match rows with
  | [] => ret tt
  | row :: rest => let* _ := row_step E out_tmp columns row in rows_loop E out_tmp columns rest
  end.

Fixpoint prefixb (a l : pystr) : bool :=
  match a, l with
  | [], _ => true
  | c :: a', d :: l' => Ascii.eqb c d && prefixb a' l'
  | _ :: _, [] => false
  end.

(** the zip entries: [zf.write(fpath, os.path.relpath(fpath, out_tmp))]
    for each created file; a missing file raises *)
Fixpoint zip_files (out_tmp : pystr) (fs : fsys) (files : list pystr)
  : res (list (pystr * content)) :=
  match files with
  | [] => Ok []
  | f :: rest =>
      match fs f with
      | None => Err FileNotFoundError
      | Some c => match zip_files out_tmp fs rest with
                  | Ok zs => Ok ((skipn (S (length out_tmp)) f, c) :: zs)
                  | Err e => Err e
                  end
      end
  end.

(** [process_excel_to_zip] on the table already read by [pd.read_excel]:
    the column headers and the rows; the result is the list of zip entries. *)
Definition process_excel_to_zip (E : env) (columns : list pystr) (rows : list (list cell))
  : M (list (pystr * content)) :=
  let tmp_root := e_tmp_root E in
  let* _ := modify (fun s => set_fs (fs_write (st_fs s) tmp_root Dir) s) in   (* mkdtemp *)
  let out_tmp := join tmp_root (lit "outputs") in
  let* _ := makedirs out_tmp in
  let rows := filter (fun r => negb (forallb is_nan r)) rows in   (* dropna(how='all') *)
  let* _ := rows_loop E out_tmp columns rows in
  let* s := get in
  let* zs := lift (zip_files out_tmp (st_fs s) (st_created s)) in
  (* shutil.rmtree(tmp_root) *)
  let* _ := put (set_fs (fun q => if peqb q tmp_root || prefixb (tmp_root ++ ["/"%char]) q
                                  then None else st_fs s q) s) in
  ret zs.

(** the empty state on a given file system *)
Definition init (fs : fsys) : st := mkst fs [] 0 [] [].

(** a file system holding one media file of 100 seconds *)
Definition one_video (path : pystr) : fsys :=
  fun q => if peqb q path then Some (Media 100) else None.

Definition ex_src : pystr := lit "/videos/Chan/clip.mp4".
Definition ex_env : env := mkenv (fun _ => None) (fun _ => None) (lit "/tmp/t").
Definition ex_run (columns : list pystr) (rows : list (list cell)) :=
  process_excel_to_zip ex_env columns rows (init (one_video ex_src)).

(** a local file whose only timecode column holds [cell] *)
Definition ex_one_cell (cell : pystr) :=
  ex_run [lit "Path"; lit "Channel"; lit "Clip"] [[CStr ex_src; CNaN; CStr cell]].

(** a local file with two columns whose labels both sanitize to "Clip" *)
Definition ex_same_label :=
  ex_run [lit "Path"; lit "Channel"; lit "Clip (a)"; lit "Clip (b)"]
         [[CStr ex_src; CStr (lit "Me"); CStr (lit "0-5"); CStr (lit "0-5")]].

(** ** The upload date of a report entry  (App.py lines 144-151) *)

(** a value of the yt-dlp info dictionary *)
Inductive pyval :=
| PNone
| PStr (s : pystr)
| PInt (z : Z).

(** [s[i:j]] for [0 <= i <= j] *)
Definition slice (i j : nat) (s : pystr) : pystr := firstn (j - i) (skipn i s).

(** [upload_date] as computed from [info.get("upload_date")] *)
Definition report_upload_date (upload_date_raw : pyval) : pystr :=
  match upload_date_raw with
  | PStr s =>
      if (8 <=? length s)%nat
      then slice 6 8 s ++ "-"%char :: slice 4 6 s ++ "-"%char :: slice 0 4 s
      else []
  | _ => []
  end.

(** every file of [s] is still there, with the same content, in [s'] *)
Definition keeps (s s' : st) : Prop :=
  forall p c, st_fs s p = Some c -> st_fs s' p = Some c.

(** every path of [s'] holds what it held in [s], or a media file *)
Definition media_only (s s' : st) : Prop :=
  forall p, st_fs s' p = st_fs s p \/ exists d, st_fs s' p = Some (Media d).

(** [m] relates the state before and after it by [R], whatever its
    outcome *)
Definition preserves (R : st -> st -> Prop) {A} (m : M A) : Prop :=
  forall s, R s (snd (m s)).

(** The jobs a cell should give, following the spec's words: the parts of
    the cell in order, each valid part (one with a '-' whose two sides
    both parse to a number of seconds) giving one job named by its
    1-based position among all parts, with its start and end. *)
Definition valid_part (part : pystr) : option (Z * Z) :=
  if has "-" part then
    let '(x, y) := split_first "-" part in
    match parse_timecode x, parse_timecode y with
    | Ok (Some a), Ok (Some b) => Some (a, b)
    | _, _ => None
    end
  else None.

Fixpoint positional_jobs_from (of cc ct col : pystr) (k : nat) (parts : list pystr)
  : list (pystr * (Z * Z)) :=
  match parts with
  | [] => []
  | part :: rest =>
      match valid_part part with
      | Some ab => [(join of (filename (col_label col) cc ct (k + 1)), ab)]
      | None => []
      end ++ positional_jobs_from of cc ct col (S k) rest
  end.

Definition positional_jobs (of cc ct col : pystr) (parts : list pystr) :=
  positional_jobs_from of cc ct col 0 parts.

(** a run from [s] to [r] logs a prefix of [jobs] in their order, all of
    them when it ends normally, and calls [trim_clip] only on jobs of
    [jobs] with their own start and end *)
Definition runs_jobs (jobs : list (pystr * (Z * Z))) (s : st) (r : res unit * st) : Prop :=
  (exists new rest, st_jobs (snd r) = st_jobs s ++ new /\ new ++ rest = map fst jobs) /\
  (fst r = Ok tt -> st_jobs (snd r) = st_jobs s ++ map fst jobs) /\
  (exists newt, st_trims (snd r) = st_trims s ++ newt /\
     Forall (fun '(o, a, b) => In (o, (a, b)) jobs) newt).


(** ** The report tab  (App.py lines 120-197 and 362-363) *)

(** [str.splitlines()] on ASCII text: lines end at \n, \r, \r\n,
    \x0b, \x0c, \x1c, \x1d and \x1e; a final line break opens no new line *)
Definition is_linebreak (c : ascii) : bool :=
  let n := nat_of_ascii c in
  ((10 <=? n) && (n <=? 13) || (28 <=? n) && (n <=? 30))%nat.

Fixpoint splitlines_go (cur : pystr) (l : pystr) : list pystr :=
  match l with
  | [] => match cur with [] => [] | _ => [rev cur] end
  | c :: r =>
      if Ascii.eqb c (ascii_of_nat 13) then
        match r with
        | d :: r' => if Ascii.eqb d (ascii_of_nat 10) then rev cur :: splitlines_go [] r'
                     else rev cur :: splitlines_go [] r
        | [] => rev cur :: splitlines_go [] r
        end
      else if is_linebreak c then rev cur :: splitlines_go [] r
      else splitlines_go (c :: cur) r
  end.

Definition splitlines (l : pystr) : list pystr := splitlines_go [] l.

(** [urls = [u.strip() for u in urls_text.splitlines() if u.strip()]] *)
Definition urls_of_text (urls_text : pystr) : list pystr :=
  map strip (filter (fun u => match strip u with [] => false | _ => true end)
               (splitlines urls_text)).

(** the yt-dlp metadata read by the report: "title", "uploader",
    "channel" and "upload_date" ([None] or [PNone] when absent; the texts
    are string values) *)
Record rinfo := mkrinfo {
  r_title : option pystr;
  r_uploader : option pystr;
  r_channel : option pystr;
  r_upload_date : pyval
}.

(** the four metadata rows written in the table cell of one URL
    (lines 142-165): label and value *)
Definition report_entry (url : pystr) (i : rinfo) : list (pystr * pystr) :=
  let title := match r_title i with Some t => t | None => lit "Unknown Title" end in
  let uploader := str_or (r_uploader i) (str_or (r_channel i) (lit "Unknown Channel")) in
  let upload_date := report_upload_date (r_upload_date i) in
  [(lit "Title:", title); (lit "Post Date:", upload_date);
   (lit "Link:", url); (lit "Channel:", uploader)].

(** a character python-docx can put in a run: the text of [p.add_run]
    goes to lxml, which raises ValueError on the control characters other
    than tab, newline and carriage return (python-docx turns those three
    into tab and break elements) *)
Definition xml_char_ok (c : ascii) : bool :=
  let n := nat_of_ascii c in
  ((32 <=? n) || (n =? 9) || (n =? 10) || (n =? 13))%nat.

(** the four [add_metadata_to_cell] calls of one URL: they succeed when
    every value can be put in a run (the labels always can) *)
Definition entry_ok (e : list (pystr * pystr)) : bool :=
  forallb (fun lv => forallb xml_char_ok (snd lv)) e.

(** the loop [for url in urls] of [build_report_from_urls]: the metadata
    cells written, in order, or the ValueError that aborts the report, and
    the number of [st.warning] calls made; [fetch] is [fetch_ytdl_info]
    ([None] when it raises) *)
Fixpoint build_report (fetch : pystr -> option rinfo) (urls : list pystr)
  : res (list (list (pystr * pystr))) * nat :=
  match urls with
  | [] => (Ok [], 0%nat)
  | url :: rest =>
      match fetch url with
      | None => let '(r, warnings) := build_report fetch rest in (r, S warnings)
      | Some i =>
          let e := report_entry url i in
          if entry_ok e then
            let '(r, warnings) := build_report fetch rest in
            (match r with Ok es => Ok (e :: es) | Err x => Err x end, warnings)
          else (Err ValueError, 0%nat)
      end
  end.

(** ** Small runs of the parser and of the sanitizer *)

Example parse_timecode_ex1 : parse_timecode (lit "01:02:03") = Ok (Some 3723%Z).
Proof. reflexivity. Qed.
Example parse_timecode_ex2 : parse_timecode (lit " 1.30") = Ok (Some 90%Z).
Proof. reflexivity. Qed.
Example parse_timecode_ex3 : parse_timecode (lit "1:2:3:4") = Ok None.
Proof. reflexivity. Qed.
Example parse_timecode_ex4 : parse_timecode (lit "ab") = Err ValueError.
Proof. reflexivity. Qed.
Example sanitize_ex1 : sanitize_name (lit "///???") = lit "Unknown".
Proof. reflexivity. Qed.
Example sanitize_ex2 : sanitize_name (lit " a:b. ") = lit "ab".
Proof. reflexivity. Qed.

(** ** Facts about stripping *)

Section Strip.
Variable p : ascii -> bool.

Lemma lstrip_first_not l : first_not p l -> lstrip_by p l = l.
Proof. destruct l as [|c r]; simpl; [reflexivity|]. intros ->. reflexivity. Qed.

Lemma rstrip_last_not l : last_not p l -> rstrip_by p l = l.
Proof.
  unfold last_not, rstrip_by. intros H.
  rewrite <- (rev_involutive l) at 2.
  destruct (rev l) as [|c r]; simpl in *; [reflexivity|]. now rewrite H.
Qed.

Lemma first_not_lstrip l : first_not p (lstrip_by p l).
Proof.
  induction l as [|c r IH]; simpl; [exact I|].
  destruct (p c) eqn:E; [exact IH|exact E].
Qed.

Lemma last_not_rstrip l : last_not p (rstrip_by p l).
Proof.
  unfold last_not, rstrip_by. rewrite rev_involutive. apply first_not_lstrip.
Qed.

Lemma lstrip_suffix l : exists pre, l = pre ++ lstrip_by p l.
Proof.
  induction l as [|c r [pre IH]]; simpl; [now exists []|].
  destruct (p c); [exists (c :: pre); simpl; now f_equal | now exists []].
Qed.

Lemma rstrip_prefix l : exists suf, l = rstrip_by p l ++ suf.
Proof.
  unfold rstrip_by. destruct (lstrip_suffix (rev l)) as [pre E].
  exists (rev pre). rewrite <- rev_app_distr, <- E. now rewrite rev_involutive.
Qed.

Lemma forallb_lstrip q l : forallb q l = true -> forallb q (lstrip_by p l) = true.
Proof.
  destruct (lstrip_suffix l) as [pre E]. rewrite E at 1.
  rewrite forallb_app. now intros [_ ?]%andb_prop.
Qed.

Lemma forallb_rstrip q l : forallb q l = true -> forallb q (rstrip_by p l) = true.
Proof.
  destruct (rstrip_prefix l) as [suf E]. rewrite E at 1.
  rewrite forallb_app. now intros [? _]%andb_prop.
Qed.

(** dropping characters at the front keeps the last character *)
Lemma last_not_lstrip q l : last_not q l -> last_not q (lstrip_by p l).
Proof.
  destruct (lstrip_suffix l) as [pre E]. unfold last_not.
  rewrite E at 1. rewrite rev_app_distr.
  destruct (rev (lstrip_by p l)); simpl; auto.
Qed.

End Strip.

Lemma forallb_filter_id (f : ascii -> bool) l : forallb f l = true -> filter f l = l.
Proof.
  induction l as [|c r IH]; simpl; [reflexivity|].
  intros [-> H]%andb_prop. now rewrite IH.
Qed.

Lemma forallb_filter (f g : ascii -> bool) l :
  forallb g l = true -> forallb g (filter f l) = true.
Proof.
  induction l as [|c r IH]; simpl; [reflexivity|].
  intros [H1 H2]%andb_prop. destruct (f c); simpl; rewrite ?H1; auto.
Qed.

Lemma forallb_filter_self (f : ascii -> bool) l : forallb f (filter f l) = true.
Proof.
  induction l as [|c r IH]; simpl; [reflexivity|].
  destruct (f c) eqn:E; simpl; rewrite ?E; auto.
Qed.

Lemma last_not_weaken (p q : ascii -> bool) l :
  (forall c, In c l -> q c = true -> p c = true) -> last_not p l -> last_not q l.
Proof.
  unfold last_not. intros H. destruct (rev l) as [|c r] eqn:E; [auto|].
  intros Hp. destruct (q c) eqn:Eq; [|reflexivity].
  rewrite H in Hp; [discriminate | | exact Eq].
  apply in_rev. rewrite E. now left.
Qed.

Lemma first_not_weaken (p q : ascii -> bool) l :
  (forall c, In c l -> q c = true -> p c = true) -> first_not p l -> first_not q l.
Proof.
  unfold first_not. intros H. destruct l as [|c r]; [auto|].
  intros Hp. destruct (q c) eqn:Eq; [|reflexivity].
  rewrite H in Hp; [discriminate | now left | exact Eq].
Qed.

(** the only printable whitespace character is the space *)
Lemma printable_space (c : ascii) :
  is_printable c = true -> is_space c = true -> has c (lit ". ") = true.
Proof.
  unfold is_printable, is_space, has. intros H1 H2.
  assert (nat_of_ascii c = 32%nat) as E.
  { apply andb_prop in H1 as [H1 H1'].
    apply Nat.leb_le in H1, H1'.
    apply orb_prop in H2 as [H2|H2]; apply andb_prop in H2 as [H2 H2'];
      apply Nat.leb_le in H2, H2'; lia. }
  rewrite <- (ascii_nat_embedding c), E. reflexivity.
Qed.

(** ** Facts about [sanitize_name] *)


Lemma sanitize_name_steps name :
  name <> [] ->
  sanitize_name name = match sanitize_steps name with [] => lit "Unknown" | r => r end.
Proof. destruct name; [contradiction|reflexivity]. Qed.

(** a name that is already sanitized is left alone *)
Lemma sanitize_name_fixed r :
  r <> [] -> forallb allowed r = true -> forallb is_printable r = true ->
  first_not is_space r -> last_not dot_space r ->
  sanitize_name r = r.
Proof.
  intros Hne Ha Hp Hf Hl.
  rewrite sanitize_name_steps by exact Hne. unfold sanitize_steps.
  rewrite (forallb_filter_id _ _ Ha), (rstrip_last_not _ _ Hl),
    (forallb_filter_id _ _ Hp).
  unfold strip. rewrite (lstrip_first_not _ _ Hf).
  rewrite rstrip_last_not.
  - destruct r; [contradiction|reflexivity].
  - apply (last_not_weaken dot_space); [|exact Hl].
    intros c Hin Hs. apply printable_space; [|exact Hs].
    rewrite forallb_forall in Hp. auto.
Qed.

Lemma sanitize_steps_shape x :
  forallb is_printable x = true ->
  forallb allowed (sanitize_steps x) = true /\
  forallb is_printable (sanitize_steps x) = true /\
  first_not is_space (sanitize_steps x) /\
  last_not dot_space (sanitize_steps x).
Proof.
  intros Hx. unfold sanitize_steps.
  set (n3 := rstrip_by dot_space (filter allowed x)).
  assert (Hp3 : forallb is_printable n3 = true)
    by (apply forallb_rstrip, forallb_filter, Hx).
  assert (Ha3 : forallb allowed n3 = true)
    by (apply forallb_rstrip, forallb_filter_self).
  assert (Hl3 : last_not dot_space n3) by apply last_not_rstrip.
  rewrite (forallb_filter_id _ _ Hp3).
  unfold strip.
  set (n5 := lstrip_by is_space n3).
  assert (Hl5 : last_not dot_space n5) by (apply last_not_lstrip, Hl3).
  assert (Hp5 : forallb is_printable n5 = true) by (apply forallb_lstrip, Hp3).
  rewrite rstrip_last_not.
  - repeat split.
    + apply forallb_lstrip, Ha3.
    + exact Hp5.
    + apply first_not_lstrip.
    + exact Hl5.
  - apply (last_not_weaken dot_space); [|exact Hl5].
    intros c Hin Hs. apply printable_space; [|exact Hs].
    rewrite forallb_forall in Hp5. auto.
Qed.

Lemma sanitize_unknown : sanitize_name (lit "Unknown") = lit "Unknown".
Proof. reflexivity. Qed.

(** ** Claims on [sanitize_name] *)

(** C7 (counterexample): sanitizing twice is not always the same as
    sanitizing once.  For "a." followed by a tab, [rstrip(". ")] sees the
    tab last and keeps the period; the tab is removed afterwards as
    non-printable, so the first pass returns "a." and the second "a". *)
Lemma sanitize_name_not_idempotent :
  sanitize_name (sanitize_name ["a"; "."; ascii_of_nat 9]%char)
  <> sanitize_name ["a"; "."; ascii_of_nat 9]%char.
Proof. vm_compute. discriminate. Qed.

(** C7 (amended): name sanitization is idempotent on every ASCII text made
    of printable characters (space to tilde):
    [sanitize_name (sanitize_name x) = sanitize_name x].  The model is
    ASCII only; outside ASCII the NFKC step can also break idempotence. *)
Theorem sanitize_name_idempotent_printable x :
  forallb is_printable x = true ->
  sanitize_name (sanitize_name x) = sanitize_name x.
Proof.
  intros Hx. destruct x as [|c t]; [reflexivity|].
  rewrite (sanitize_name_steps (c :: t)) by discriminate.
  destruct (sanitize_steps_shape (c :: t) Hx) as (Ha & Hp & Hf & Hl).
  destruct (sanitize_steps (c :: t)) as [|d u] eqn:E; [reflexivity|].
  apply sanitize_name_fixed; auto. discriminate.
Qed.

Lemma sanitize_name_idempotent_printable_witness :
  forallb is_printable (lit " a:b. ") = true /\
  sanitize_name (sanitize_name (lit " a:b. ")) = sanitize_name (lit " a:b. ").
Proof.
  split; [reflexivity|].
  apply (sanitize_name_idempotent_printable (lit " a:b. ")). reflexivity.
Defined.

(** C8: [sanitize_name] is a total function whose result is never empty;
    when its input is empty or its steps leave nothing it returns exactly
    "Unknown", as for "" and for "///???". *)
Theorem sanitize_name_total_nonempty :
  (forall x, sanitize_name x <> [] /\
             ((x = [] \/ sanitize_steps x = []) -> sanitize_name x = lit "Unknown")) /\
  sanitize_name (lit "") = lit "Unknown" /\
  sanitize_name (lit "///???") = lit "Unknown".
Proof.
  split; [|split; reflexivity].
  intros x. destruct x as [|c t]; [split; [discriminate|reflexivity]|].
  rewrite (sanitize_name_steps (c :: t)) by discriminate.
  destruct (sanitize_steps (c :: t)) as [|d u] eqn:E.
  - split; [discriminate|reflexivity].
  - split; [discriminate|]. intros [H|H]; discriminate.
Qed.

(** ** Facts about [parse_timecode] *)


Lemma digit_not_space c : is_digit c = true -> is_space c = false.
Proof.
  unfold is_digit, is_space. intros [H1 H2]%andb_prop.
  apply Nat.leb_le in H1, H2.
  destruct (9 <=? nat_of_ascii c)%nat eqn:E1, (nat_of_ascii c <=? 13)%nat eqn:E2,
    (28 <=? nat_of_ascii c)%nat eqn:E3, (nat_of_ascii c <=? 32)%nat eqn:E4;
    simpl; auto;
    apply Nat.leb_le in E2 || apply Nat.leb_le in E4; lia.
Qed.

Lemma digit_neq c d : is_digit c = true -> is_digit d = false -> Ascii.eqb c d = false.
Proof. intros H1 H2. destruct (Ascii.eqb_spec c d); [subst; congruence|reflexivity]. Qed.

Lemma digits_go_num acc l :
  forallb is_digit l = true ->
  digits_go acc l = Some (fold_left (fun acc c => acc * 10 + digit_val c) l acc).
Proof.
  revert acc. induction l as [|c r IH]; intros acc H; simpl; [reflexivity|].
  apply andb_prop in H as [-> H]. apply IH, H.
Qed.

Lemma py_int_num l :
  is_num l -> (length l <= max_str_digits)%nat -> py_int l = Some (decimal l).
Proof.
  intros [Hne Hd] Hlen. unfold py_int, strip.
  assert (Hs : forall c, In c l -> is_space c = true -> is_digit c = true -> False).
  { intros c _ H1 H2. rewrite digit_not_space in H1 by exact H2. discriminate. }
  assert (Hsp : forall c, In c l -> is_space c = true -> negb (is_digit c) = true).
  { intros c Hin H. destruct (is_digit c) eqn:E; [|reflexivity]. exfalso; eauto. }
  assert (Hall : forall c, In c l -> is_digit c = true)
    by (apply forallb_forall, Hd).
  rewrite lstrip_first_not.
  2:{ apply (first_not_weaken (fun c => negb (is_digit c))); [exact Hsp|].
      destruct l as [|c r]; [contradiction|]. simpl.
      now rewrite (Hall c (or_introl eq_refl)). }
  rewrite rstrip_last_not.
  2:{ apply (last_not_weaken (fun c => negb (is_digit c))); [exact Hsp|].
      unfold last_not. destruct (rev l) as [|c r] eqn:E; [exact I|].
      rewrite Hall; [reflexivity|]. apply in_rev. rewrite E. now left. }
  destruct l as [|c r]; [contradiction|].
  simpl in Hd. apply andb_prop in Hd as [Hc Hr].
  rewrite (digit_neq c "+") by (exact Hc || reflexivity).
  rewrite (digit_neq c "-") by (exact Hc || reflexivity).
  unfold digits. rewrite (forallb_filter_id is_digit (c :: r)) by (simpl; now rewrite Hc).
  replace (max_str_digits <? length (c :: r))%nat with false
    by (symmetry; apply Nat.ltb_ge, Hlen).
  rewrite Hc, digits_go_num by exact Hr.
  unfold decimal. simpl. reflexivity.
Qed.

Lemma split_on_none sep l :
  forallb (fun c => negb (Ascii.eqb c sep)) l = true -> split_on sep l = [l].
Proof.
  induction l as [|c r IH]; simpl; [reflexivity|].
  intros [H1 H2]%andb_prop. apply negb_true_iff in H1. rewrite H1, IH by exact H2.
  reflexivity.
Qed.

Lemma split_on_app sep l r :
  forallb (fun c => negb (Ascii.eqb c sep)) l = true ->
  split_on sep (l ++ sep :: r) = l :: split_on sep r.
Proof.
  induction l as [|c t IH]; simpl.
  - now rewrite Ascii.eqb_refl.
  - intros [H1 H2]%andb_prop. apply negb_true_iff in H1. rewrite H1, IH by exact H2.
    reflexivity.
Qed.

Lemma strip_id l : first_not is_space l -> last_not is_space l -> strip l = l.
Proof.
  intros Hf Hl. unfold strip. rewrite (lstrip_first_not _ _ Hf).
  apply rstrip_last_not, Hl.
Qed.

Lemma first_not_num_app a b : is_num a -> first_not is_space (a ++ b).
Proof.
  intros [Hne Hd]. destruct a as [|c r]; [contradiction|]. simpl in *.
  apply andb_prop in Hd as [Hc _]. apply digit_not_space, Hc.
Qed.

Lemma last_not_app_num a b : is_num b -> last_not is_space (a ++ b).
Proof.
  intros [Hne Hd]. unfold last_not. rewrite rev_app_distr.
  destruct (rev b) as [|c r] eqn:E; [destruct b; [contradiction|];
    simpl in E; destruct (rev b); discriminate|].
  simpl. apply digit_not_space.
  rewrite forallb_forall in Hd. apply Hd, in_rev. rewrite E. now left.
Qed.


Lemma map_colon_num l : forallb is_digit l = true -> map colon_of_dot l = l.
Proof.
  induction l as [|c r IH]; simpl; [reflexivity|].
  intros [Hc Hr]%andb_prop. unfold colon_of_dot at 1.
  rewrite (digit_neq c ".") by (exact Hc || reflexivity). now rewrite IH.
Qed.

Lemma num_no_colon l :
  forallb is_digit l = true -> forallb (fun c => negb (Ascii.eqb c ":")) l = true.
Proof.
  induction l as [|c r IH]; simpl; [reflexivity|].
  intros [Hc Hr]%andb_prop. rewrite (digit_neq c ":") by (exact Hc || reflexivity).
  simpl. apply IH, Hr.
Qed.


Lemma colon_of_sep c : is_sep c -> colon_of_dot c = ":"%char.
Proof. intros [-> | ->]; reflexivity. Qed.

Lemma parse_timecode_unfold tc :
  parse_timecode tc =
  match map_int (split_on ":" (map colon_of_dot (strip tc))) with
  | Err e => Err e
  | Ok [h] => Ok (Some h)
  | Ok [m; s] => Ok (Some (m * 60 + s))
  | Ok [h; m; s] => Ok (Some (h * 3600 + m * 60 + s))
  | Ok _ => Ok None
  end.
Proof. reflexivity. Qed.

(** C2 (counterexample): a one-part token of 4301 digits is not read as
    a number of seconds: [int()] refuses texts of more than 4300 digits
    and raises ValueError. *)
Lemma long_timecode_rejected :
  parse_timecode (repeat "1"%char 4301) = Err ValueError.
Proof. vm_compute. reflexivity. Qed.

(** C2 (amended): a token of one, two or three numeric parts of at most
    4300 digits each, separated by ':' or '.', is read as S, M*60+S and
    H*3600+M*60+S seconds. *)
Theorem parse_timecode_formats h m s sep1 sep2 :
  is_num h -> is_num m -> is_num s -> is_sep sep1 -> is_sep sep2 ->
  (length h <= max_str_digits)%nat -> (length m <= max_str_digits)%nat ->
  (length s <= max_str_digits)%nat ->
  parse_timecode s = Ok (Some (decimal s)) /\
  parse_timecode (m ++ sep1 :: s) = Ok (Some (decimal m * 60 + decimal s)) /\
  parse_timecode (h ++ sep1 :: m ++ sep2 :: s) =
    Ok (Some (decimal h * 3600 + decimal m * 60 + decimal s)).
Proof.
  intros Hh Hm Hs H1 H2 Lh Lm Ls.
  pose proof Hh as [_ Dh]. pose proof Hm as [_ Dm]. pose proof Hs as [_ Ds].
  repeat split; rewrite parse_timecode_unfold, strip_id.
  - rewrite (map_colon_num _ Ds), (split_on_none _ _ (num_no_colon _ Ds)).
    simpl. now rewrite (py_int_num _ Hs Ls).
  - pose proof (first_not_num_app s [] Hs) as X. now rewrite app_nil_r in X.
  - now apply (last_not_app_num [] s).
  - rewrite map_app. simpl. rewrite (colon_of_sep _ H1), (map_colon_num _ Dm),
      (map_colon_num _ Ds), (split_on_app _ _ _ (num_no_colon _ Dm)),
      (split_on_none _ _ (num_no_colon _ Ds)).
    simpl. now rewrite (py_int_num _ Hm Lm), (py_int_num _ Hs Ls).
  - now apply first_not_num_app.
  - replace (m ++ sep1 :: s) with ((m ++ [sep1]) ++ s)
      by now rewrite <- app_assoc.
    now apply last_not_app_num.
  - rewrite map_app. simpl. rewrite map_app. simpl.
    rewrite (colon_of_sep _ H1), (colon_of_sep _ H2), (map_colon_num _ Dh),
      (map_colon_num _ Dm), (map_colon_num _ Ds),
      (split_on_app _ _ _ (num_no_colon _ Dh)),
      (split_on_app _ _ _ (num_no_colon _ Dm)),
      (split_on_none _ _ (num_no_colon _ Ds)).
    simpl. now rewrite (py_int_num _ Hh Lh), (py_int_num _ Hm Lm), (py_int_num _ Hs Ls).
  - now apply first_not_num_app.
  - replace (h ++ sep1 :: m ++ sep2 :: s) with ((h ++ sep1 :: m ++ [sep2]) ++ s)
      by (rewrite <- app_assoc; simpl; rewrite <- app_assoc; reflexivity).
    now apply last_not_app_num.
Qed.

Lemma parse_timecode_formats_witness :
  let h := lit "01" in let m := lit "02" in let s := lit "30" in
  is_num h /\ is_num m /\ is_num s /\ is_sep ":"%char /\ is_sep "."%char /\
  (length h <= max_str_digits)%nat /\ (length m <= max_str_digits)%nat /\
  (length s <= max_str_digits)%nat /\
  parse_timecode (h ++ ":" :: m ++ "." :: s)%char = Ok (Some 3750).
Proof.
  cbv zeta.
  assert (Hh : is_num (lit "01")) by (split; [discriminate|reflexivity]).
  assert (Hm : is_num (lit "02")) by (split; [discriminate|reflexivity]).
  assert (Hs : is_num (lit "30")) by (split; [discriminate|reflexivity]).
  assert (H1 : is_sep ":"%char) by now left.
  assert (H2 : is_sep "."%char) by now right.
  assert (Lh : (length (lit "01") <= max_str_digits)%nat) by (apply Nat.leb_le; vm_compute; reflexivity).
  assert (Lm : (length (lit "02") <= max_str_digits)%nat) by (apply Nat.leb_le; vm_compute; reflexivity).
  assert (Ls : (length (lit "30") <= max_str_digits)%nat) by (apply Nat.leb_le; vm_compute; reflexivity).
  refine (conj Hh (conj Hm (conj Hs (conj H1 (conj H2 (conj Lh (conj Lm (conj Ls _)))))))).
  destruct (parse_timecode_formats _ _ _ _ _ Hh Hm Hs H1 H2 Lh Lm Ls) as (_ & _ & E).
  rewrite E. reflexivity.
Defined.


(** ** Reasoning about the monad *)

Lemma peqb_true a b : peqb a b = true <-> a = b.
Proof. unfold peqb. destruct (list_eq_dec Ascii.ascii_dec a b); split; congruence. Qed.

Lemma peqb_false a b : a <> b -> peqb a b = false.
Proof. unfold peqb. destruct (list_eq_dec Ascii.ascii_dec a b); congruence. Qed.

Section Preserve.
Variable R : st -> st -> Prop.
Hypothesis R_refl : forall s, R s s.
Hypothesis R_trans : forall s1 s2 s3, R s1 s2 -> R s2 s3 -> R s1 s3.

Lemma preserves_ret {A} (a : A) : preserves R (ret a).
Proof. intros s. apply R_refl. Qed.

Lemma preserves_lift {A} (r : res A) : preserves R (lift r).
Proof. intros s. apply R_refl. Qed.

Lemma preserves_bind {A B} (m : M A) (k : A -> M B) :
  preserves R m -> (forall a, preserves R (k a)) -> preserves R (bind m k).
Proof.
  intros Hm Hk s. unfold bind. specialize (Hm s).
  destruct (m s) as [[a|e] s']; simpl in *; [|exact Hm].
  eapply R_trans; [exact Hm|apply Hk].
Qed.

Lemma preserves_modify (f : st -> st) : (forall s, R s (f s)) -> preserves R (modify f).
Proof. intros H s. apply H. Qed.

Lemma preserves_try_warn (m : M unit) :
  (forall s, R s (warn s)) -> preserves R m -> preserves R (try_warn m).
Proof.
  intros Hw Hm s. unfold try_warn. specialize (Hm s).
  destruct (m s) as [[[]|e] s']; simpl in *; [exact Hm|].
  eapply R_trans; [exact Hm|apply Hw].
Qed.

End Preserve.

(** what a call of [trim_clip] changes: it logs the call and may write
    its output file, nothing else *)
Lemma trim_clip_effect vp a b out s :
  let s' := snd (trim_clip vp a b out s) in
  st_jobs s' = st_jobs s /\ st_created s' = st_created s /\
  st_warnings s' = st_warnings s /\ st_trims s' = st_trims s ++ [(out, a, b)] /\
  (forall p, p <> out -> st_fs s' p = st_fs s p).
Proof.
  cbv beta iota zeta delta [trim_clip bind modify get put ret throw].
  change (st_fs (log_trim ?t s)) with (st_fs s).
  destruct (st_fs s vp) as [[d| |]|]; [|repeat split; auto ..].
  destruct (py_float a) as [fa|]; [|repeat split; auto].
  destruct (py_float b) as [fb|]; [|repeat split; auto].
  destruct (Qle_bool _ _); simpl; repeat split; auto.
  intros p Hp. unfold fs_write. now rewrite peqb_false.
Qed.

(** the three ways one iteration over a part can go *)
Lemma part_step_cases vp of cc ct col idx part s :
  part_step vp of cc ct col idx part s = (Ok tt, s) \/
  (exists e, part_step vp of cc ct col idx part s = (Err e, s)) \/
  (exists x y a b,
     has "-" part = true /\ split_first "-" part = (x, y) /\
     parse_timecode x = Ok (Some a) /\ parse_timecode y = Ok (Some b) /\
     let outpath := join of (filename (col_label col) cc ct (idx + 1)) in
     part_step vp of cc ct col idx part s =
       if fs_exists (st_fs s) outpath then (Ok tt, log_job outpath s)
       else try_warn (let* _ := trim_clip vp a b outpath in
                      modify (add_created outpath)) (log_job outpath s)).
Proof.
  unfold part_step.
  destruct (has "-" part) eqn:Hh; simpl; [|now left].
  destruct (split_first "-" part) as [x y] eqn:Hs.
  cbv beta iota delta [bind lift ret].
  destruct (parse_timecode x) as [[a|]|e] eqn:Hx;
    [| |right; left; now exists e];
    (destruct (parse_timecode y) as [[b|]|e'] eqn:Hy;
      [| |right; left; now exists e']); try now left.
  right; right. exists x, y, a, b. repeat split; auto.
  cbv beta iota delta [bind modify exists_path].
  change (st_fs (log_job ?p s)) with (st_fs s).
  destruct (fs_exists (st_fs s) _); reflexivity.
Qed.

(** what running one job (lines 321-325) changes *)
Lemma run_job_effect vp a b out s :
  let s' := snd (try_warn (let* _ := trim_clip vp a b out in
                           modify (add_created out)) s) in
  st_jobs s' = st_jobs s /\ st_trims s' = st_trims s ++ [(out, a, b)] /\
  (forall p, p <> out -> st_fs s' p = st_fs s p).
Proof.
  destruct (trim_clip_effect vp a b out s) as (Hj & _ & _ & Ht & Hf).
  unfold try_warn, bind.
  destruct (trim_clip vp a b out s) as [[r|e] s1]; simpl in *;
    repeat split; auto.
Qed.

Lemma part_step_valid vp of cc ct col idx part x y a b s :
  has "-" part = true -> split_first "-" part = (x, y) ->
  parse_timecode x = Ok (Some a) -> parse_timecode y = Ok (Some b) ->
  let outpath := join of (filename (col_label col) cc ct (idx + 1)) in
  part_step vp of cc ct col idx part s =
    if fs_exists (st_fs s) outpath then (Ok tt, log_job outpath s)
    else try_warn (let* _ := trim_clip vp a b outpath in
                   modify (add_created outpath)) (log_job outpath s).
Proof.
  intros Hh Hs Hx Hy. unfold part_step. rewrite Hh, Hs. simpl.
  cbv beta iota delta [bind lift ret]. rewrite Hx, Hy.
  cbv beta iota delta [bind modify exists_path].
  change (st_fs (log_job ?p s)) with (st_fs s).
  destruct (fs_exists (st_fs s) _); reflexivity.
Qed.

(** C4 (amended): a job whose output file exists in the row's output
    folder when the job is reached (a file written by an earlier job of
    the same run counts) is skipped: [trim_clip] is not called, nothing
    is written and the path is not added to [created_files]; a job whose
    output file does not exist at that moment gets [trim_clip] called on
    it. *)
Theorem job_skipped_iff_output_exists vp of cc ct col idx part x y a b s :
  has "-" part = true -> split_first "-" part = (x, y) ->
  parse_timecode x = Ok (Some a) -> parse_timecode y = Ok (Some b) ->
  let outpath := join of (filename (col_label col) cc ct (idx + 1)) in
  let s' := snd (part_step vp of cc ct col idx part s) in
  (fs_exists (st_fs s) outpath = true ->
     st_fs s' = st_fs s /\ st_created s' = st_created s /\ st_trims s' = st_trims s) /\
  (fs_exists (st_fs s) outpath = false ->
     st_trims s' = st_trims s ++ [(outpath, a, b)]).
Proof.
  intros Hh Hs Hx Hy. cbv zeta.
  rewrite (part_step_valid vp of cc ct col idx part x y a b s Hh Hs Hx Hy).
  split; intros E; rewrite E.
  - repeat split.
  - now destruct (run_job_effect vp a b (join of (filename (col_label col) cc ct (idx + 1)))
      (log_job (join of (filename (col_label col) cc ct (idx + 1))) s)) as (_ & -> & _).
Qed.

Lemma job_skipped_iff_output_exists_witness :
  let part := lit "0-5" in
  has "-" part = true /\ split_first "-" part = (lit "0", lit "5") /\
  parse_timecode (lit "0") = Ok (Some 0) /\ parse_timecode (lit "5") = Ok (Some 5) /\
  let outpath := join (lit "/out") (filename (col_label (lit "Clip")) (lit "Chan")
                                      (lit "Title") (0 + 1)) in
  let s := init (fun q => if peqb q outpath then Some Junk else None) in
  let s' := snd (part_step (lit "/v.mp4") (lit "/out") (lit "Chan") (lit "Title")
                   (lit "Clip") 0 part s) in
  (fs_exists (st_fs s) outpath = true ->
     st_fs s' = st_fs s /\ st_created s' = st_created s /\ st_trims s' = st_trims s) /\
  (fs_exists (st_fs s) outpath = false ->
     st_trims s' = st_trims s ++ [(outpath, 0, 5)]).
Proof.
  cbv zeta.
  assert (Hh : has "-" (lit "0-5") = true) by reflexivity.
  assert (Hs : split_first "-" (lit "0-5") = (lit "0", lit "5")) by reflexivity.
  assert (Hx : parse_timecode (lit "0") = Ok (Some 0)) by reflexivity.
  assert (Hy : parse_timecode (lit "5") = Ok (Some 5)) by reflexivity.
  refine (conj Hh (conj Hs (conj Hx (conj Hy _)))).
  exact (job_skipped_iff_output_exists (lit "/v.mp4") (lit "/out") (lit "Chan")
           (lit "Title") (lit "Clip") 0 (lit "0-5") (lit "0") (lit "5") 0 5 _ Hh Hs Hx Hy).
Defined.

Lemma try_warn_ok (m : M unit) s : fst (try_warn m s) = Ok tt.
Proof. unfold try_warn. now destruct (m s) as [[[]|e] s']. Qed.

Lemma split_any_sub (P : ascii -> bool) l part c :
  In part (split_any P l) -> In c part -> In c l.
Proof.
  revert part. induction l as [|d r IH]; intros part Hp Hc; simpl in Hp.
  - destruct Hp as [<-|[]]. destruct Hc.
  - destruct (P d).
    + destruct Hp as [<-|Hp]; [destruct Hc|right; eapply IH; eauto].
    + case_eq (split_any P r); [|intros h t]; intros E; rewrite E in Hp.
      * destruct Hp as [<-|[]]. destruct Hc as [<-|[]]. now left.
      * destruct Hp as [<-|Hp].
        -- destruct Hc as [<-|Hc]; [now left|].
           right. apply (IH h); [rewrite E; now left|exact Hc].
        -- right. apply (IH part); [rewrite E; now right|exact Hc].
Qed.

Lemma has_in c l : has c l = true <-> In c l.
Proof.
  unfold has. rewrite existsb_exists. split.
  - intros (d & Hd & E). apply Ascii.eqb_eq in E. now subst.
  - intros H. exists c. split; auto. apply Ascii.eqb_refl.
Qed.

Section JobIndex.
Variables (vp of cc ct col : pystr).

Lemma positional_jobs_none k parts :
  (forall part, In part parts -> has "-" part = false) ->
  positional_jobs_from of cc ct col k parts = [].
Proof.
  revert k. induction parts as [|part rest IH]; intros k H; [reflexivity|].
  simpl. unfold valid_part at 1. rewrite (H part (or_introl eq_refl)).
  apply IH. intros q Hq. apply H. now right.
Qed.

Lemma runs_jobs_ret s : runs_jobs [] s (ret tt s).
Proof.
  split; [|split].
  - exists [], []. now rewrite app_nil_r.
  - intros _. simpl. now rewrite app_nil_r.
  - exists []. split; [now rewrite app_nil_r|constructor].
Qed.

(** one part: an invalid one changes nothing, a valid one logs its job
    and may call [trim_clip] on it *)
Lemma part_step_spec k part s :
  match valid_part part with
  | None => snd (part_step vp of cc ct col k part s) = s
  | Some (a, b) =>
      let outpath := join of (filename (col_label col) cc ct (k + 1)) in
      let s' := snd (part_step vp of cc ct col k part s) in
      fst (part_step vp of cc ct col k part s) = Ok tt /\
      st_jobs s' = st_jobs s ++ [outpath] /\
      (st_trims s' = st_trims s \/ st_trims s' = st_trims s ++ [(outpath, a, b)])
  end.
Proof.
  unfold valid_part.
  destruct (has "-" part) eqn:Hh; [|unfold part_step; now rewrite Hh].
  destruct (split_first "-" part) as [x y] eqn:Hs.
  destruct (parse_timecode x) as [[a|]|e] eqn:Hx;
    destruct (parse_timecode y) as [[b|]|e'] eqn:Hy; cbv beta iota;
    try (unfold part_step; rewrite Hh, Hs; simpl;
         cbv beta iota delta [bind lift ret]; rewrite Hx; try rewrite Hy;
         reflexivity).
  cbv zeta. rewrite (part_step_valid vp of cc ct col k part x y a b s Hh Hs Hx Hy).
  destruct (fs_exists _ _).
  - repeat split. now left.
  - destruct (run_job_effect vp a b (join of (filename (col_label col) cc ct (k + 1)))
      (log_job (join of (filename (col_label col) cc ct (k + 1))) s)) as (Hj & Ht & _).
    split; [apply try_warn_ok|]. split; [exact Hj|]. right. exact Ht.
Qed.

Lemma parts_loop_spec parts k s :
  runs_jobs (positional_jobs_from of cc ct col k parts) s
    (parts_loop vp of cc ct col k parts s).
Proof.
  revert k s. induction parts as [|part rest IH]; intros k s; [apply runs_jobs_ret|].
  pose proof (part_step_spec k part s) as P.
  change (parts_loop vp of cc ct col k (part :: rest) s)
    with (bind (part_step vp of cc ct col k part)
               (fun _ => parts_loop vp of cc ct col (S k) rest) s).
  unfold bind. cbn [positional_jobs_from].
  destruct (valid_part part) as [[a b]|] eqn:V.
  - cbv zeta in P. destruct P as (Pok & Pj & Pt).
    destruct (part_step vp of cc ct col k part s) as [[u|e] s1];
      simpl in Pok, Pj, Pt; [|discriminate].
    destruct (IH (S k) s1) as ((new & rst & E1 & E2) & Hok & (nt & T1 & T2)).
    set (out := join of (filename (col_label col) cc ct (k + 1))) in *.
    split; [|split].
    + exists (out :: new), rst. rewrite E1, Pj, <- app_assoc.
      split; [reflexivity|]. simpl. now rewrite E2.
    + intros H. rewrite (Hok H), Pj, <- app_assoc. reflexivity.
    + assert (T2' : Forall (fun '(o, a0, b0) => In (o, (a0, b0))
                       ([(out, (a, b))] ++ positional_jobs_from of cc ct col (S k) rest)) nt).
      { eapply Forall_impl; [|exact T2]. intros [[o a0] b0] Hin. now right. }
      destruct Pt as [Pt|Pt].
      * exists nt. rewrite T1, Pt. split; [reflexivity|exact T2'].
      * exists ((out, a, b) :: nt). rewrite T1, Pt, <- app_assoc.
        split; [reflexivity|]. constructor; [now left|exact T2'].
  - destruct (part_step vp of cc ct col k part s) as [[u|e] s1];
      simpl in P; subst s1; simpl.
    + apply IH.
    + split; [|split].
      * exists [], (map fst (positional_jobs_from of cc ct col (S k) rest)).
        now rewrite app_nil_r.
      * discriminate.
      * exists []. split; [now rewrite app_nil_r|constructor].
Qed.

End JobIndex.


(** C3: the jobs of a cell are exactly its valid parts, in order, each
    named by the 1-based position of its own part among all parts of the
    cell, skipped parts included, and cut with its own start and end: the
    run logs these jobs in order (all of them unless a part raises),
    and [trim_clip] is only called on one of them with its range. For
    "00:01-00:12,garbage,00:20-00:30" exactly two jobs, part1 (1 to 12 s)
    and part3 (20 to 30 s), are planned and run. *)
Theorem cell_job_positional_index :
  (forall vp of cc ct col c s,
     runs_jobs
       (positional_jobs of cc ct col
          (if is_nan c then [] else split_any slash_comma (strip (cell_text c))))
       s (cell_step vp of cc ct col c s)) /\
  (let r := cell_step (lit "/v.mp4") (lit "/out") (lit "Chan") (lit "Title") (lit "Clip")
              (CStr (lit "00:01-00:12,garbage,00:20-00:30"))
              (init (one_video (lit "/v.mp4"))) in
   let out n := join (lit "/out") (filename (lit "Clip") (lit "Chan") (lit "Title") n) in
   fst r = Ok tt /\ st_jobs (snd r) = [out 1%nat; out 3%nat] /\
   st_trims (snd r) = [(out 1%nat, 1, 12); (out 3%nat, 20, 30)]).
Proof.
  split.
  - intros vp of cc ct col c s. unfold cell_step, positional_jobs.
    destruct (is_nan c); [apply runs_jobs_ret|].
    destruct (strip (cell_text c)) as [|ch t] eqn:E; [apply runs_jobs_ret|].
    destruct (has "-" (ch :: t)) eqn:Hd; simpl negb; cbv iota.
    + apply parts_loop_spec.
    + rewrite positional_jobs_none; [apply runs_jobs_ret|].
      intros part Hp. destruct (has "-" part) eqn:Hq; [|reflexivity].
      apply has_in in Hq. apply (split_any_sub _ _ _ _ Hp) in Hq.
      apply has_in in Hq. congruence.
  - vm_compute. repeat split.
Qed.

Lemma cell_job_positional_index_witness :
  runs_jobs
    (positional_jobs (lit "/out") (lit "Chan") (lit "Title") (lit "Clip")
       (split_any slash_comma (strip (lit "1-2,x,3-4"))))
    (init (fun _ => None))
    (cell_step (lit "/v.mp4") (lit "/out") (lit "Chan") (lit "Title") (lit "Clip")
       (CStr (lit "1-2,x,3-4")) (init (fun _ => None))).
Proof.
  exact (proj1 cell_job_positional_index (lit "/v.mp4") (lit "/out") (lit "Chan")
           (lit "Title") (lit "Clip") (CStr (lit "1-2,x,3-4")) (init (fun _ => None))).
Defined.


(** ** Output names *)

Lemma fold_decimal l acc :
  fold_left (fun acc c => acc * 10 + digit_val c) l acc =
  acc * 10 ^ Z.of_nat (length l) + decimal l.
Proof.
  unfold decimal. revert acc. induction l as [|c r IH]; intros acc;
    cbn [fold_left length].
  - lia.
  - rewrite (IH (acc * 10 + digit_val c)), (IH (0 * 10 + digit_val c)).
    rewrite Nat2Z.inj_succ, Z.pow_succ_r by lia. lia.
Qed.

Lemma decimal_cons c l :
  decimal (c :: l) = digit_val c * 10 ^ Z.of_nat (length l) + decimal l.
Proof. unfold decimal at 1. simpl. rewrite fold_decimal. lia. Qed.

Lemma digit_of_nat n : (n < 10)%nat ->
  is_digit (ascii_of_nat (48 + n)) = true /\ digit_val (ascii_of_nat (48 + n)) = Z.of_nat n.
Proof.
  intros H. unfold is_digit, digit_val.
  rewrite nat_ascii_embedding by lia. split.
  - apply andb_true_intro; split; apply Nat.leb_le; lia.
  - f_equal. lia.
Qed.

Lemma str_nat_aux_spec fuel n acc :
  (n < fuel)%nat ->
  forallb is_digit (str_nat_aux fuel n acc) = forallb is_digit acc /\
  decimal (str_nat_aux fuel n acc) =
    Z.of_nat n * 10 ^ Z.of_nat (length acc) + decimal acc /\
  exists l, str_nat_aux fuel n acc = l ++ acc.
Proof.
  revert n acc. induction fuel as [|f IH]; intros n acc Hn; [lia|].
  cbn [str_nat_aux].
  destruct (digit_of_nat (n mod 10)) as [Hd Hv]; [apply Nat.mod_upper_bound; lia|].
  set (d := ascii_of_nat (48 + n mod 10)) in *.
  pose proof (Nat.div_mod_eq n 10) as Hdm.
  destruct (n / 10)%nat as [|q] eqn:Eq.
  - cbn [forallb]. rewrite Hd, decimal_cons, Hv. split; [reflexivity|]. split.
    + rewrite Nat.mul_0_r, Nat.add_0_l in Hdm. rewrite <- Hdm. reflexivity.
    + now exists [d].
  - destruct (IH (S q) (d :: acc)) as (H1 & H2 & l & H3).
    { assert (n <> 0)%nat by (intros ->; discriminate). nia. }
    rewrite H1, H2. cbn [forallb length]. rewrite Hd, decimal_cons, Hv.
    split; [reflexivity|]. split.
    + rewrite (Nat2Z.inj_succ (length acc)), Z.pow_succ_r by lia.
      replace (Z.of_nat n) with (10 * Z.of_nat (S q) + Z.of_nat (n mod 10))
        by lia.
      ring.
    + exists (l ++ [d]). rewrite H3, <- app_assoc. reflexivity.
Qed.

Lemma py_str_nat_digits n :
  forallb is_digit (py_str_nat n) = true /\ decimal (py_str_nat n) = Z.of_nat n.
Proof.
  destruct (str_nat_aux_spec (S n) n [] ltac:(lia)) as (H1 & H2 & _).
  unfold py_str_nat. rewrite H1, H2. simpl. split; [reflexivity|]. unfold decimal; simpl. lia.
Qed.

(** the digits at the end of a text are determined by the first
    non-digit before them *)
Lemma digits_before_nondigit a b z r1 r2 :
  forallb is_digit a = true -> forallb is_digit b = true -> is_digit z = false ->
  a ++ z :: r1 = b ++ z :: r2 -> a = b /\ r1 = r2.
Proof.
  revert b. induction a as [|c a IH]; intros [|d b] Ha Hb Hz E; simpl in *.
  - injection E. auto.
  - apply andb_prop in Hb as [Hd _]. injection E as -> _. congruence.
  - apply andb_prop in Ha as [Hc _]. injection E as <- _. congruence.
  - apply andb_prop in Ha as [_ Ha]. apply andb_prop in Hb as [_ Hb].
    injection E as -> E. destruct (IH b Ha Hb Hz E) as [-> ->]. auto.
Qed.

Lemma filename_shape c ch t n :
  filename c ch t n =
  ((c ++ "_"%char :: ch ++ "_"%char :: t ++ lit "_par") ++ "t"%char :: py_str_nat n)
  ++ lit ".mp4".
Proof.
  unfold filename. rewrite <- !app_assoc. cbn [app].
  rewrite <- !app_assoc. cbn [app]. rewrite <- !app_assoc. reflexivity.
Qed.

Lemma forallb_rev_digit l : forallb is_digit l = true -> forallb is_digit (rev l) = true.
Proof.
  rewrite !forallb_forall. intros H c Hc. apply H, in_rev, Hc.
Qed.

Lemma rev_inj (l1 l2 : pystr) : rev l1 = rev l2 -> l1 = l2.
Proof. intros E. rewrite <- (rev_involutive l1), E. apply rev_involutive. Qed.

(** C5 (amended): within a row (fixed channel and title), the output name
    is determined by the sanitized column label and the part index, and
    distinct (label, index) pairs give distinct names: equal names come
    from equal labels and equal indices. *)
Theorem filename_injective c1 c2 ch t n1 n2 :
  filename c1 ch t n1 = filename c2 ch t n2 -> c1 = c2 /\ n1 = n2.
Proof.
  rewrite !filename_shape. intros E. apply app_inv_tail in E.
  apply (f_equal (@rev ascii)) in E. rewrite !rev_app_distr in E. simpl in E.
  rewrite <- !app_assoc in E. simpl in E.
  destruct (py_str_nat_digits n1) as [D1 V1].
  destruct (py_str_nat_digits n2) as [D2 V2].
  destruct (digits_before_nondigit _ _ "t"%char _ _ (forallb_rev_digit _ D1)
              (forallb_rev_digit _ D2) eq_refl E) as [Ep Ec].
  apply rev_inj in Ep. apply app_inv_head in Ec. injection Ec as Ec.
  apply rev_inj in Ec. split; [exact Ec|].
  apply Nat2Z.inj. rewrite <- V1, <- V2, Ep. reflexivity.
Qed.

Lemma filename_injective_witness :
  filename (lit "Clip") (lit "Chan") (lit "Title") 12 =
  filename (lit "Clip") (lit "Chan") (lit "Title") 12 /\
  lit "Clip" = lit "Clip" /\ 12%nat = 12%nat.
Proof.
  assert (E : filename (lit "Clip") (lit "Chan") (lit "Title") 12 =
              filename (lit "Clip") (lit "Chan") (lit "Title") 12) by reflexivity.
  split; [exact E|]. exact (filename_injective _ _ _ _ _ _ E).
Defined.

(** ** Runs of [process_excel_to_zip] on small tables *)


(** C1 (code bug): a part whose start token is not numeric ("ab-cd")
    makes [int()] raise ValueError inside [parse_timecode]; nothing
    catches it, so [process_excel_to_zip] fails as a whole and the
    sibling part "00:20-00:30" is never processed (only part1 is cut). *)
Theorem non_numeric_token_aborts :
  parse_timecode (lit "ab") = Err ValueError /\
  fst (ex_one_cell (lit "00:01-00:12,ab-cd,00:20-00:30")) = Err ValueError /\
  map (fun '(_, a, b) => (a, b)) (st_trims (snd (ex_one_cell (lit "00:01-00:12,ab-cd,00:20-00:30"))))
    = [(1, 12)].
Proof. vm_compute. repeat split. Qed.

(** C4 (counterexample): the output folder starts without any output,
    the row has two valid jobs, yet only one of them is executed: both
    columns give the name "Clip_Me_clip_part1.mp4" and the second job
    finds the file of the first. *)
Lemma same_label_job_not_run :
  (forall q, prefixb (lit "/tmp/t/") q = true -> one_video ex_src q = None) /\
  length (st_jobs (snd ex_same_label)) = 2%nat /\
  length (st_trims (snd ex_same_label)) = 1%nat.
Proof.
  split; [|vm_compute; split; reflexivity].
  intros q H. unfold one_video.
  destruct (peqb q ex_src) eqn:E; [|reflexivity].
  apply peqb_true in E. subst q. discriminate H.
Qed.

(** C5 (counterexample): the two jobs planned for one row share the
    output name "Clip_Me_clip_part1.mp4". *)
Lemma same_label_names_collide :
  exists j, st_jobs (snd ex_same_label) = [j; j] /\
            j = join (lit "/tmp/t/outputs/Me_clip")
                  (filename (lit "Clip") (lit "Me") (lit "clip") 1).
Proof. eexists. vm_compute. split; reflexivity. Qed.


(** C6 (code bug): for the range "0:10-0:05" of a 100-second video,
    [trim_clip] returns [False] and writes no file, but the caller still
    appends the output path to [created_files]; the zip step then raises
    FileNotFoundError and the whole run fails. *)
Theorem empty_range_fails_zip :
  let r := ex_one_cell (lit "0:10-0:05") in
  let out := join (lit "/tmp/t/outputs/Chan_clip")
               (filename (lit "Clip") (lit "Chan") (lit "clip") 1) in
  fst r = Err FileNotFoundError /\
  st_created (snd r) = [out] /\ st_fs (snd r) out = None /\
  map (fun '(_, a, b) => (a, b)) (st_trims (snd r)) = [(10, 5)].
Proof. vm_compute. repeat split. Qed.


(** C9 (counterexample): a short date string is not left as it is: for
    "2023" the Post Date is empty. *)
Lemma short_upload_date_dropped :
  report_upload_date (PStr (lit "2023")) = [] /\
  report_upload_date (PStr (lit "2023")) <> lit "2023".
Proof. split; [reflexivity|discriminate]. Qed.

(** C9 (amended): a date string of at least 8 characters YYYYMMDD... is
    written DD-MM-YYYY; a shorter string, a missing value or a non-string
    value gives the empty string. *)
Theorem report_upload_date_spec :
  (forall y1 y2 y3 y4 m1 m2 d1 d2 rest,
     report_upload_date (PStr ([y1; y2; y3; y4; m1; m2; d1; d2] ++ rest)) =
     [d1; d2; "-"; m1; m2; "-"; y1; y2; y3; y4]%char) /\
  (forall s, (length s < 8)%nat -> report_upload_date (PStr s) = []) /\
  report_upload_date PNone = [] /\
  (forall z, report_upload_date (PInt z) = []) /\
  report_upload_date (PStr (lit "20230517")) = lit "17-05-2023".
Proof.
  repeat split.
  - intros s H. unfold report_upload_date.
    destruct (8 <=? length s)%nat eqn:E; [|reflexivity].
    apply Nat.leb_le in E. lia.
Qed.

(** ** Files kept by a row *)


Lemma keeps_refl s : keeps s s.
Proof. intros p c H. exact H. Qed.

Lemma keeps_trans s1 s2 s3 : keeps s1 s2 -> keeps s2 s3 -> keeps s1 s3.
Proof. intros H1 H2 p c H. auto. Qed.

Section Keep.
Variables (vp of cc ct : pystr).

Lemma part_step_keeps col idx part : preserves keeps (part_step vp of cc ct col idx part).
Proof.
  intros s.
  destruct (part_step_cases vp of cc ct col idx part s)
    as [E|[[e E]|(x & y & a & b & Hh & Hs & Hx & Hy & E)]];
    rewrite E; simpl; try apply keeps_refl.
  set (outpath := join of (filename (col_label col) cc ct (idx + 1))).
  destruct (fs_exists (st_fs s) outpath) eqn:Ex; [intros p c H; exact H|].
  destruct (run_job_effect vp a b outpath (log_job outpath s)) as (_ & _ & Hf).
  intros p c H. rewrite Hf; [exact H|].
  intros ->. unfold fs_exists in Ex. rewrite H in Ex. discriminate.
Qed.

Lemma parts_loop_keeps col parts k : preserves keeps (parts_loop vp of cc ct col k parts).
Proof.
  revert k. induction parts as [|part rest IH]; intros k; simpl.
  - apply preserves_ret, keeps_refl.
  - apply preserves_bind; [apply keeps_trans|apply part_step_keeps|intros _; apply IH].
Qed.

Lemma cols_loop_keeps cols : preserves keeps (cols_loop vp of cc ct cols).
Proof.
  induction cols as [|[col c] rest IH]; simpl.
  - apply preserves_ret, keeps_refl.
  - apply preserves_bind; [apply keeps_trans| |intros _; apply IH].
    intros s. unfold cell_step. destruct (is_nan c); [apply keeps_refl|].
    destruct (strip (cell_text c)) as [|x t]; [apply keeps_refl|].
    destruct (negb (has "-" (x :: t))); [apply keeps_refl|].
    apply parts_loop_keeps.
Qed.

End Keep.

Lemma fold_write_notin l fs p c0 :
  ~ In p l -> fold_left (fun fs q => fs_write fs q c0) l fs p = fs p.
Proof.
  revert fs. induction l as [|q r IH]; intros fs H; simpl; [reflexivity|].
  rewrite IH by (intros X; apply H; now right).
  unfold fs_write. rewrite peqb_false; [reflexivity|].
  intros ->. apply H. now left.
Qed.

Lemma split_existing_miss fs rc miss top :
  split_existing fs rc = (miss, top) -> forall q, In q miss -> fs_exists fs q = false.
Proof.
  revert miss top. induction rc as [|q r IH]; intros miss top; simpl.
  - intros [= <- _] x [].
  - destruct (fs_exists fs q) eqn:Eq; [intros [= <- _] x []|].
    destruct (split_existing fs r) as [m t] eqn:Es.
    intros [= <- _] x [<-|Hx]; [exact Eq|]. eapply IH; eauto.
Qed.

(** [os.makedirs] only creates directories where nothing existed *)
Lemma makedirs_keeps p : preserves keeps (makedirs p).
Proof.
  intros s. unfold makedirs. cbv zeta.
  destruct (st_fs s p) as [c|] eqn:Ep; [destruct c; apply keeps_refl|].
  destruct (split_existing (st_fs s) (rev (parent_dirs [] p))) as [miss top] eqn:Es.
  assert (K : keeps s (set_fs (fold_left (fun fs q => fs_write fs q Dir) (p :: miss)
                                 (st_fs s)) s)).
  { intros q c Hq. change (st_fs (set_fs ?f s)) with f.
    rewrite fold_write_notin; [exact Hq|].
    intros [<-|Hin]; [congruence|].
    apply (split_existing_miss _ _ _ _ Es) in Hin.
    unfold fs_exists in Hin. rewrite Hq in Hin. discriminate. }
  destruct top as [q|]; [destruct (st_fs s q) as [[]|]|]; try exact K; apply keeps_refl.
Qed.

Lemma join_suffix a c b : c <> "/"%char -> exists dir, join a (c :: b) = dir ++ c :: b.
Proof.
  intros H. unfold join. destruct (Ascii.eqb_spec c "/"); [congruence|].
  destruct (rev a) as [|d r]; [now exists []|].
  destruct (Ascii.eqb d "/"); [now exists a|exists (a ++ ["/"%char])].
  rewrite <- app_assoc. reflexivity.
Qed.

(** C10: processing a row removes or changes no file that existed
    before, whatever the outcome of the row, except the file
    output_folder/temp_video.<ext> of a remote source (one whose
    identifier is not an existing file, whose metadata was fetched and
    whose video was downloaded with extension <ext>), where
    output_folder is out_tmp joined with the row's folder name; in
    particular the media file of a local source is left as it was. *)
Theorem row_keeps_source_files E out_tmp columns row s p c :
  st_fs s p = Some c ->
  let src := strip (cell_text (nth 0 row CNaN)) in
  let s' := snd (row_step E out_tmp columns row s) in
  st_fs s' p = Some c \/
  (fs_exists (st_fs s) src = false /\
   exists i ext d, e_meta E src = Some i /\ e_download E src = Some (ext, d) /\
     p = join (join out_tmp (firstn 180 (sanitize_name (snd (remote_title_channel i)) ++
                                          "_"%char :: sanitize_name (fst (remote_title_channel i)))))
              (lit "temp_video." ++ ext)).
Proof.
  intros Hp. cbv zeta. unfold row_step.
  destruct (strip (cell_text (nth 0 row CNaN))) as [|h t] eqn:Esrc; [now left|].
  cbv beta iota delta [bind exists_path].
  destruct (fs_exists (st_fs s) (h :: t)) eqn:Hloc.
  - left. destruct (local_title_channel columns row (h :: t)) as [title channel].
    cbv beta iota.
    match goal with |- context [makedirs ?o s] =>
      pose proof (makedirs_keeps o s p c Hp) as K0;
      destruct (makedirs o s) as [[[]|e0] s1] end; [|exact K0].
    cbv beta iota delta [ret].
    match goal with |- context [cols_loop ?x1 ?x2 ?x3 ?x4 ?x5 s1] =>
      pose proof (cols_loop_keeps x1 x2 x3 x4 x5 s1 p c K0) as K;
      destruct (cols_loop x1 x2 x3 x4 x5 s1) as [[[]|e'] s2] end; simpl in *; exact K.
  - destruct (e_meta E (h :: t)) as [i|]; cbv beta iota delta [option_map];
      [|now left].
    destruct (remote_title_channel i) as [title channel] eqn:Er.
    cbv beta iota.
    match goal with |- context [makedirs ?o s] =>
      pose proof (makedirs_keeps o s p c Hp) as K0;
      destruct (makedirs o s) as [[[]|e0] s1] end; [|now left].
    destruct (e_download E (h :: t)) as [[ext d]|]; cbv beta iota; [|now left].
    match goal with |- context [join ?o (lit "temp_video." ++ ext)] =>
      set (vp := join o (lit "temp_video." ++ ext)) end.
    cbv beta iota delta [get put ret].
    destruct (list_eq_dec Ascii.ascii_dec p vp) as [->|Hne].
    + right. split; [reflexivity|]. exists i, ext, d. now rewrite Er.
    + left.
      assert (H1 : st_fs (set_fs (fs_write (st_fs s1) vp (Media d)) s1) p = Some c).
      { simpl. unfold fs_write. now rewrite peqb_false. }
      match goal with |- context [cols_loop ?x1 ?x2 ?x3 ?x4 ?x5 ?s1] =>
        pose proof (cols_loop_keeps x1 x2 x3 x4 x5 s1 p c H1) as K;
        destruct (cols_loop x1 x2 x3 x4 x5 s1) as [[[]|e'] s2] end;
        simpl in K |- *; [|exact K].
      destruct (fs_exists (st_fs s2) vp); simpl; [|exact K].
      destruct (st_fs s2 vp) as [[]|]; simpl; try exact K;
        unfold fs_remove; now rewrite peqb_false.
Qed.

Lemma row_keeps_source_files_witness :
  let row := [CStr ex_src; CNaN; CStr (lit "0-5")] in
  let src := strip (cell_text (nth 0 row CNaN)) in
  st_fs (init (one_video ex_src)) ex_src = Some (Media 100) /\
  let s' := snd (row_step ex_env (lit "/tmp/t/outputs") [lit "Path"; lit "Channel"; lit "Clip"]
                   row (init (one_video ex_src))) in
  st_fs s' ex_src = Some (Media 100) \/
  (fs_exists (st_fs (init (one_video ex_src))) src = false /\
   exists i ext d, e_meta ex_env src = Some i /\ e_download ex_env src = Some (ext, d) /\
     ex_src = join (join (lit "/tmp/t/outputs")
                     (firstn 180 (sanitize_name (snd (remote_title_channel i)) ++
                                  "_"%char :: sanitize_name (fst (remote_title_channel i)))))
                (lit "temp_video." ++ ext)).
Proof.
  assert (H : st_fs (init (one_video ex_src)) ex_src = Some (Media 100)) by reflexivity.
  cbv zeta. split; [exact H|].
  exact (row_keeps_source_files ex_env (lit "/tmp/t/outputs") [lit "Path"; lit "Channel"; lit "Clip"]
           [CStr ex_src; CNaN; CStr (lit "0-5")] (init (one_video ex_src)) ex_src (Media 100) H).
Defined.

(** ** More about [parse_timecode] *)









Lemma lstrip_map (p : ascii -> bool) (f : ascii -> ascii) l :
  (forall c, p (f c) = p c) -> lstrip_by p (map f l) = map f (lstrip_by p l).
Proof.
  intros Hf. induction l as [|c r IH]; simpl; [reflexivity|].
  rewrite Hf. destruct (p c); [exact IH|reflexivity].
Qed.

Lemma strip_map (f : ascii -> ascii) l :
  (forall c, is_space (f c) = is_space c) -> strip (map f l) = map f (strip l).
Proof.
  intros Hf. unfold strip, rstrip_by.
  rewrite (lstrip_map _ _ _ Hf), <- map_rev, (lstrip_map _ _ _ Hf), map_rev.
  reflexivity.
Qed.

Lemma colon_of_dot_idem c : colon_of_dot (colon_of_dot c) = colon_of_dot c.
Proof. unfold colon_of_dot. destruct (Ascii.eqb c ".") eqn:E; [reflexivity|now rewrite E]. Qed.

Lemma colon_of_dot_space c : is_space (colon_of_dot c) = is_space c.
Proof. unfold colon_of_dot. destruct (Ascii.eqb_spec c "."); subst; reflexivity. Qed.

(** '.' and ':' are the same separator for [parse_timecode]: replacing
    every '.' of a token by ':' does not change its result. *)
Theorem parse_timecode_dot_colon tc :
  parse_timecode (map colon_of_dot tc) = parse_timecode tc.
Proof.
  rewrite !parse_timecode_unfold, (strip_map _ _ colon_of_dot_space), map_map.
  rewrite (map_ext _ _ colon_of_dot_idem). reflexivity.
Qed.

(** ** More about [sanitize_name] *)

Lemma first_not_rstrip (p q : ascii -> bool) l :
  first_not q l -> first_not q (rstrip_by p l).
Proof.
  intros H. destruct (rstrip_prefix p l) as [suf E].
  remember (rstrip_by p l) as m eqn:Em. clear Em.
  subst l. destruct m as [|c r]; [exact I|exact H].
Qed.

Lemma sanitize_steps_safe x :
  forallb allowed (sanitize_steps x) = true /\
  forallb is_printable (sanitize_steps x) = true /\
  first_not is_space (sanitize_steps x) /\
  last_not is_space (sanitize_steps x).
Proof.
  unfold sanitize_steps, strip.
  set (n4 := filter is_printable (rstrip_by dot_space (filter allowed x))).
  repeat split.
  - apply forallb_rstrip, forallb_lstrip. unfold n4.
    apply forallb_filter, forallb_rstrip, forallb_filter_self.
  - apply forallb_rstrip, forallb_lstrip, forallb_filter_self.
  - apply first_not_rstrip, first_not_lstrip.
  - apply last_not_rstrip.
Qed.

(** whatever its input, [sanitize_name] returns a non-empty text made of
    printable characters, with none of the characters removed by its
    [re.sub] call (so no slash), and with no whitespace at either end. *)
Theorem sanitize_name_safe x :
  let r := sanitize_name x in
  r <> [] /\ forallb allowed r = true /\ forallb is_printable r = true /\
  first_not is_space r /\ last_not is_space r.
Proof.
  cbv zeta.
  assert (U : lit "Unknown" <> [] /\ forallb allowed (lit "Unknown") = true /\
              forallb is_printable (lit "Unknown") = true /\
              first_not is_space (lit "Unknown") /\ last_not is_space (lit "Unknown"))
    by (split; [discriminate|repeat split]).
  destruct x as [|c t]; [exact U|].
  rewrite (sanitize_name_steps (c :: t)) by discriminate.
  destruct (sanitize_steps_safe (c :: t)) as (Ha & Hp & Hf & Hl).
  destruct (sanitize_steps (c :: t)) as [|d u]; [exact U|].
  split; [discriminate|auto].
Qed.

(** ** Column labels *)

Lemma split_first_app sep a b :
  has sep a = false -> split_first sep (a ++ sep :: b) = (a, b).
Proof.
  induction a as [|c r IH]; simpl.
  - now rewrite Ascii.eqb_refl.
  - intros [H1 H2]%orb_false_elim. rewrite Ascii.eqb_sym, H1, IH by exact H2.
    reflexivity.
Qed.

Lemma split_first_none sep a : has sep a = false -> split_first sep a = (a, []).
Proof.
  induction a as [|c r IH]; simpl; [reflexivity|].
  intros [H1 H2]%orb_false_elim. rewrite Ascii.eqb_sym, H1, IH by exact H2.
  reflexivity.
Qed.

(** the label of a column in output names depends only on the header
    text before its first '(': "Clip (a)" and "Clip" get the same label. *)
Theorem col_label_paren a b :
  has "(" a = false -> col_label (a ++ "("%char :: b) = col_label a.
Proof.
  intros H. unfold col_label. rewrite split_first_app, split_first_none by exact H.
  reflexivity.
Qed.

Lemma col_label_paren_witness :
  has "(" (lit "Clip ") = false /\
  col_label (lit "Clip " ++ "("%char :: lit "a)") = col_label (lit "Clip ").
Proof.
  assert (H : has "(" (lit "Clip ") = false) by reflexivity.
  split; [exact H|]. exact (col_label_paren (lit "Clip ") (lit "a)") H).
Defined.

(** ** More about [trim_clip] *)

Lemma round_double_small n : 0 <= n < 2 ^ 53 -> round_double n = n.
Proof.
  intros [H0 H1]. unfold round_double.
  destruct (Z.eq_dec n 0) as [->|Hn]; [reflexivity|].
  assert (L : Z.log2 n < 53) by (apply Z.log2_lt_pow2; lia).
  replace (Z.log2 n - 52 <=? 0) with true by (symmetry; apply Z.leb_le; lia).
  reflexivity.
Qed.

(** [float(n)] is exact for an integer of magnitude below 2^53 *)
Lemma py_float_small n : Z.abs n < 2 ^ 53 -> py_float n = Some (inject_Z n).
Proof.
  intros H. unfold py_float.
  rewrite round_double_small by (split; [apply Z.abs_nonneg|exact H]).
  replace (2 ^ 1024 <=? Z.abs n) with false
    by (symmetry; apply Z.leb_gt; eapply Z.lt_trans; [exact H|]; reflexivity).
  do 2 f_equal. destruct (Z.sgn_spec n) as [[? ->]|[[? ->]|[? ->]]]; lia.
Qed.

(** on a readable media file of duration [d], for a start and an end of
    magnitude below 2^53 (so that [float()] is exact) whose clamped range
    [max(0, start), min(d, end)] is not empty, [trim_clip] returns [True]
    and writes a clip of that length, which is positive and at most [d];
    no other file changes. *)
Theorem trim_clip_writes vp a b out s d :
  st_fs s vp = Some (Media d) ->
  Z.abs a < 2 ^ 53 -> Z.abs b < 2 ^ 53 ->
  (Qmax 0 (inject_Z a) < Qmin d (inject_Z b))%Q ->
  let r := trim_clip vp a b out s in
  let len := (Qmin d (inject_Z b) - Qmax 0 (inject_Z a))%Q in
  fst r = Ok true /\ st_fs (snd r) out = Some (Media len) /\
  (0 < len)%Q /\ (len <= d)%Q /\
  (forall p, p <> out -> st_fs (snd r) p = st_fs s p).
Proof.
  intros Hv Ha Hb' Hlt. cbv zeta.
  assert (Hb : Qle_bool (Qmin d (inject_Z b)) (Qmax 0 (inject_Z a)) = false).
  { destruct (Qle_bool _ _) eqn:E; [|reflexivity].
    apply Qle_bool_iff in E. exfalso. apply (Qlt_not_le _ _ Hlt E). }
  assert (Hmin := Q.le_min_l d (inject_Z b)).
  assert (Hmax := Q.le_max_l 0 (inject_Z a)).
  cbv beta iota zeta delta [trim_clip bind modify get put ret throw].
  change (st_fs (log_trim ?t s)) with (st_fs s).
  rewrite Hv, (py_float_small a Ha), (py_float_small b Hb'), Hb. simpl.
  split; [reflexivity|]. split.
  - unfold fs_write. now rewrite (proj2 (peqb_true out out) eq_refl).
  - split; [|split].
    + apply Qlt_minus_iff in Hlt. exact Hlt.
    + apply (Qle_trans _ (d - 0)); [|change (d - 0)%Q with (d + 0)%Q; rewrite Qplus_0_r; apply Qle_refl].
      apply Qplus_le_compat; [exact Hmin|]. apply Qopp_le_compat, Hmax.
    + intros p Hp. unfold fs_write. now rewrite peqb_false.
Qed.

Lemma trim_clip_writes_witness :
  st_fs (init (one_video ex_src)) ex_src = Some (Media 100) /\
  Z.abs 10 < 2 ^ 53 /\ Z.abs 20 < 2 ^ 53 /\
  (Qmax 0 (inject_Z 10) < Qmin 100 (inject_Z 20))%Q /\
  let r := trim_clip ex_src 10 20 (lit "/o.mp4") (init (one_video ex_src)) in
  let len := (Qmin 100 (inject_Z 20) - Qmax 0 (inject_Z 10))%Q in
  fst r = Ok true /\ st_fs (snd r) (lit "/o.mp4") = Some (Media len) /\
  (0 < len)%Q /\ (len <= 100)%Q /\
  (forall p, p <> lit "/o.mp4" -> st_fs (snd r) p = st_fs (init (one_video ex_src)) p).
Proof.
  assert (H1 : st_fs (init (one_video ex_src)) ex_src = Some (Media 100)) by reflexivity.
  assert (H2 : (Qmax 0 (inject_Z 10) < Qmin 100 (inject_Z 20))%Q) by reflexivity.
  assert (Ha : Z.abs 10 < 2 ^ 53) by reflexivity.
  assert (Hb : Z.abs 20 < 2 ^ 53) by reflexivity.
  refine (conj H1 (conj Ha (conj Hb (conj H2 _)))).
  exact (trim_clip_writes ex_src 10 20 (lit "/o.mp4") (init (one_video ex_src)) 100 H1 Ha Hb H2).
Defined.

Lemma round_double_big n : 2 ^ 1024 <= n -> 2 ^ 1024 <= round_double n.
Proof.
  intros H. unfold round_double.
  assert (Hn : 0 < n) by lia.
  set (L := Z.log2 n).
  assert (HL : 1024 <= L) by (apply Z.log2_le_pow2; lia).
  replace (L - 52 <=? 0) with false by (symmetry; apply Z.leb_gt; lia).
  set (k := L - 52).
  assert (Hk : 0 < 2 ^ k) by (apply Z.pow_pos_nonneg; lia).
  assert (Hq : 2 ^ 52 <= Z.shiftr n k).
  { rewrite Z.shiftr_div_pow2 by lia.
    apply Z.div_le_lower_bound; [exact Hk|].
    rewrite <- Z.pow_add_r by lia.
    match goal with |- 2 ^ ?e <= n => replace e with L by lia end.
    exact (proj1 (Z.log2_spec n Hn)). }
  set (q := Z.shiftr n k) in *.
  assert (Hq' : q <= (if (Z.shiftl 1 (k - 1) <? n - Z.shiftl q k) ||
                         ((n - Z.shiftl q k =? Z.shiftl 1 (k - 1)) && Z.odd q)
                      then q + 1 else q))
    by (destruct (_ || _); lia).
  rewrite Z.shiftl_mul_pow2 by lia.
  apply (Z.le_trans _ (2 ^ 52 * 2 ^ k)).
  - rewrite <- Z.pow_add_r by lia. apply Z.pow_le_mono_r; lia.
  - apply Z.mul_le_mono_nonneg_r; lia.
Qed.

(** [float(n)] raises OverflowError for an integer of magnitude at least 2^1024 *)
Lemma py_float_big n : 2 ^ 1024 <= Z.abs n -> py_float n = None.
Proof.
  intros H. unfold py_float.
  replace (2 ^ 1024 <=? round_double (Z.abs n)) with true
    by (symmetry; apply Z.leb_le, round_double_big, H).
  reflexivity.
Qed.

(** on a readable media file, a start or an end of magnitude at least
    2^1024 makes [float()] raise OverflowError: [trim_clip] raises it
    and writes nothing. *)
Theorem trim_clip_overflow vp a b out s d :
  st_fs s vp = Some (Media d) ->
  2 ^ 1024 <= Z.abs a \/ (Z.abs a < 2 ^ 53 /\ 2 ^ 1024 <= Z.abs b) ->
  fst (trim_clip vp a b out s) = Err OverflowError /\
  st_fs (snd (trim_clip vp a b out s)) = st_fs s.
Proof.
  intros Hv H.
  cbv beta iota zeta delta [trim_clip bind modify get put ret throw].
  change (st_fs (log_trim ?t s)) with (st_fs s). rewrite Hv.
  destruct H as [Ha|[Ha Hb]].
  - rewrite (py_float_big a Ha). split; reflexivity.
  - rewrite (py_float_small a Ha), (py_float_big b Hb). split; reflexivity.
Qed.

Lemma trim_clip_overflow_witness :
  st_fs (init (one_video ex_src)) ex_src = Some (Media 100) /\
  (2 ^ 1024 <= Z.abs 0 \/ (Z.abs 0 < 2 ^ 53 /\ 2 ^ 1024 <= Z.abs (10 ^ 400))) /\
  fst (trim_clip ex_src 0 (10 ^ 400) (lit "/o.mp4") (init (one_video ex_src))) =
    Err OverflowError /\
  st_fs (snd (trim_clip ex_src 0 (10 ^ 400) (lit "/o.mp4") (init (one_video ex_src)))) =
    st_fs (init (one_video ex_src)).
Proof.
  assert (H1 : st_fs (init (one_video ex_src)) ex_src = Some (Media 100)) by reflexivity.
  assert (H2 : 2 ^ 1024 <= Z.abs 0 \/ (Z.abs 0 < 2 ^ 53 /\ 2 ^ 1024 <= Z.abs (10 ^ 400))).
  { right. split; [reflexivity|]. apply Z.leb_le. vm_compute. reflexivity. }
  refine (conj H1 (conj H2 _)).
  exact (trim_clip_overflow ex_src 0 (10 ^ 400) (lit "/o.mp4") (init (one_video ex_src)) 100 H1 H2).
Defined.



(** ** The zip step of [process_excel_to_zip] *)

(** the zip step succeeds exactly when every created file exists; then
    it holds one entry per created file, in order, with the file's content
    under the file's path with the outputs directory and the slash after it
    cut off. *)
Theorem zip_files_ok out_tmp fs files zs :
  zip_files out_tmp fs files = Ok zs <->
  Forall2 (fun f z => fs f = Some (snd z) /\ fst z = skipn (S (length out_tmp)) f)
    files zs.
Proof.
  revert zs. induction files as [|f rest IH]; intros zs; simpl.
  - split; [intros [= <-]; constructor|intros H; inversion H; reflexivity].
  - destruct (fs f) as [c|] eqn:Hf.
    + destruct (zip_files out_tmp fs rest) as [zs'|e] eqn:Hr.
      * split.
        -- intros [= <-]. constructor; [now split|]. now apply IH.
        -- intros H. inversion H as [|x z l l' [Hc Hn] Hrest]; subst.
           apply IH in Hrest. injection Hrest as <-.
           rewrite Hf in Hc. injection Hc as Hc. rewrite Hc, <- Hn.
           destruct z; reflexivity.
      * split; [discriminate|]. intros H. inversion H as [|x z l l' _ Hrest]; subst.
        apply IH in Hrest. discriminate.
    + split; [discriminate|]. intros H. inversion H as [|x z l l' [Hc _] _]; subst.
      congruence.
Qed.

(** the zip step fails only with FileNotFoundError, and does so exactly
    when some created file does not exist. *)
Theorem zip_files_err out_tmp fs files e :
  zip_files out_tmp fs files = Err e <->
  e = FileNotFoundError /\ exists f, In f files /\ fs f = None.
Proof.
  induction files as [|f rest IH]; simpl.
  - split; [discriminate|]. now intros (_ & g & [] & _).
  - destruct (fs f) as [c|] eqn:Hf.
    + destruct (zip_files out_tmp fs rest) as [zs|e'] eqn:Hr.
      * split; [discriminate|]. intros (-> & g & [<-|Hg] & Hn); [congruence|].
        assert (X : @Ok (list (pystr * content)) zs = Err FileNotFoundError)
          by (apply IH; eauto).
        discriminate.
      * rewrite IH. split.
        -- intros (-> & g & Hg & Hn). eauto.
        -- intros (-> & g & [<-|Hg] & Hn); [congruence|]. eauto.
    + split.
      * intros [= <-]. eauto.
      * now intros (-> & _).
Qed.

(** ** Remote rows *)

Lemma media_only_refl s : media_only s s.
Proof. intros p. now left. Qed.

Lemma media_only_trans s1 s2 s3 : media_only s1 s2 -> media_only s2 s3 -> media_only s1 s3.
Proof.
  intros H1 H2 p. destruct (H2 p) as [E|E]; [rewrite E; apply H1|now right].
Qed.

Lemma trim_clip_media vp a b out : preserves media_only (trim_clip vp a b out).
Proof.
  intros s p.
  cbv beta iota zeta delta [trim_clip bind modify get put ret throw].
  change (st_fs (log_trim ?t s)) with (st_fs s).
  destruct (st_fs s vp) as [[d| |]|]; try now left.
  destruct (py_float a) as [fa|]; [|now left].
  destruct (py_float b) as [fb|]; [|now left].
  destruct (Qle_bool _ _); simpl; [now left|].
  unfold fs_write. destruct (peqb p out); [right; eauto|now left].
Qed.

Section Media.
Variables (vp of cc ct : pystr).

Lemma part_step_media col idx part : preserves media_only (part_step vp of cc ct col idx part).
Proof.
  intros s.
  destruct (part_step_cases vp of cc ct col idx part s)
    as [E|[[e E]|(x & y & a & b & Hh & Hs & Hx & Hy & E)]];
    rewrite E; simpl; try apply media_only_refl.
  set (outpath := join of (filename (col_label col) cc ct (idx + 1))).
  destruct (fs_exists (st_fs s) outpath); [intros p; now left|].
  pose proof (trim_clip_media vp a b outpath (log_job outpath s)) as H.
  unfold try_warn, bind.
  destruct (trim_clip vp a b outpath (log_job outpath s)) as [[r|e] s1];
    simpl in H |- *; exact H.
Qed.

Lemma parts_loop_media col parts k : preserves media_only (parts_loop vp of cc ct col k parts).
Proof.
  revert k. induction parts as [|part rest IH]; intros k; simpl.
  - apply preserves_ret, media_only_refl.
  - apply preserves_bind; [apply media_only_trans|apply part_step_media|intros _; apply IH].
Qed.

Lemma cols_loop_media cols : preserves media_only (cols_loop vp of cc ct cols).
Proof.
  induction cols as [|[col c] rest IH]; simpl.
  - apply preserves_ret, media_only_refl.
  - apply preserves_bind; [apply media_only_trans| |intros _; apply IH].
    intros s. unfold cell_step. destruct (is_nan c); [apply media_only_refl|].
    destruct (strip (cell_text c)) as [|x t]; [apply media_only_refl|].
    destruct (negb (has "-" (x :: t))); [apply media_only_refl|].
    apply parts_loop_media.
Qed.

End Media.


(** a remote row that completes normally leaves no downloaded video:
    the file "temp_video.<ext>" of its output folder does not exist
    afterwards. *)
Theorem remote_row_removes_download E out_tmp columns row s s' i ext d :
  strip (cell_text (nth 0 row CNaN)) <> [] ->
  fs_exists (st_fs s) (strip (cell_text (nth 0 row CNaN))) = false ->
  e_meta E (strip (cell_text (nth 0 row CNaN))) = Some i ->
  e_download E (strip (cell_text (nth 0 row CNaN))) = Some (ext, d) ->
  row_step E out_tmp columns row s = (Ok tt, s') ->
  let '(title, channel) := remote_title_channel i in
  let folder_name := firstn 180 (sanitize_name channel ++ "_"%char :: sanitize_name title) in
  st_fs s' (join (join out_tmp folder_name) (lit "temp_video." ++ ext)) = None.
Proof.
  unfold row_step.
  generalize (strip (cell_text (nth 0 row CNaN))). intros src Hne Hloc Hm Hd.
  destruct src as [|h t]; [contradiction|].
  cbv beta iota delta [bind exists_path]. rewrite Hloc, Hm.
  cbv beta iota delta [option_map].
  destruct (remote_title_channel i) as [title channel]. cbv beta iota.
  match goal with |- context [makedirs ?o s] =>
    destruct (makedirs o s) as [[[]|e0] s1] end; [|discriminate].
  rewrite Hd.
  match goal with |- context [join ?o (lit "temp_video." ++ ext)] =>
    set (vp := join o (lit "temp_video." ++ ext)) end.
  cbv beta iota delta [get put ret].
  match goal with |- context [cols_loop ?x1 ?x2 ?x3 ?x4 ?x5 ?s1] =>
    pose proof (cols_loop_media x1 x2 x3 x4 x5 s1 vp) as M;
    destruct (cols_loop x1 x2 x3 x4 x5 s1) as [[[]|e'] s2] end;
    [|discriminate].
  simpl in M. unfold fs_write in M. rewrite (proj2 (peqb_true vp vp) eq_refl) in M.
  assert (M' : exists d', st_fs s2 vp = Some (Media d')) by (destruct M as [M|M]; eauto).
  destruct M' as [d' M']. unfold fs_exists. rewrite M'. simpl. rewrite M'.
  intros [= <-]. simpl. unfold fs_remove. now rewrite (proj2 (peqb_true vp vp) eq_refl).
Qed.

Lemma remote_row_removes_download_witness :
  let E := mkenv (fun _ => Some (mkinfo (Some (lit "T")) (Some (lit "U")) None))
                 (fun _ => Some (lit "mp4", 100%Q)) (lit "/tmp/t") in
  let row := [CStr (lit "https://v"); CStr (lit "0-5")] in
  let r := row_step E (lit "/tmp/t/outputs") [lit "URL"; lit "Clip"] row
             (init (fun _ => None)) in
  r = (Ok tt, snd r) /\
  st_fs (snd r) (join (join (lit "/tmp/t/outputs") (firstn 180 (lit "U_T")))
                   (lit "temp_video.mp4")) = None.
Proof.
  cbv zeta.
  set (E := mkenv (fun _ => Some (mkinfo (Some (lit "T")) (Some (lit "U")) None))
                  (fun _ => Some (lit "mp4", 100%Q)) (lit "/tmp/t")).
  set (row := [CStr (lit "https://v"); CStr (lit "0-5")]).
  assert (H1 : strip (cell_text (nth 0 row CNaN)) <> []) by (vm_compute; discriminate).
  assert (H2 : fs_exists (st_fs (init (fun _ => None))) (strip (cell_text (nth 0 row CNaN)))
               = false) by reflexivity.
  assert (H3 : e_meta E (strip (cell_text (nth 0 row CNaN))) =
               Some (mkinfo (Some (lit "T")) (Some (lit "U")) None)) by reflexivity.
  assert (H4 : e_download E (strip (cell_text (nth 0 row CNaN))) = Some (lit "mp4", 100%Q))
    by reflexivity.
  assert (H5 : row_step E (lit "/tmp/t/outputs") [lit "URL"; lit "Clip"] row
                 (init (fun _ => None)) =
               (Ok tt, snd (row_step E (lit "/tmp/t/outputs") [lit "URL"; lit "Clip"] row
                              (init (fun _ => None))))) by (vm_compute; reflexivity).
  split; [exact H5|].
  exact (remote_row_removes_download E (lit "/tmp/t/outputs") [lit "URL"; lit "Clip"] row
           (init (fun _ => None)) _ _ (lit "mp4") 100%Q H1 H2 H3 H4 H5).
Defined.

(** ** The URL list of the report tab *)

Lemma forallb_rev (f : ascii -> bool) l : forallb f (rev l) = forallb f l.
Proof.
  induction l as [|c r IH]; simpl; [reflexivity|].
  rewrite forallb_app, IH. simpl. now rewrite andb_true_r, andb_comm.
Qed.

Lemma splitlines_go_nobreak n cur l :
  (length l <= n)%nat ->
  forallb (fun c => negb (is_linebreak c)) cur = true ->
  Forall (fun u => forallb (fun c => negb (is_linebreak c)) u = true) (splitlines_go cur l).
Proof.
  revert cur l. induction n as [|n IH]; intros cur l Hn Hc.
  - destruct l; [|simpl in Hn; lia]. simpl.
    destruct cur; constructor; auto. now rewrite forallb_rev.
  - assert (Hr : forallb (fun c => negb (is_linebreak c)) (rev cur) = true)
      by now rewrite forallb_rev.
    destruct l as [|c r]; simpl.
    + destruct cur; constructor; auto.
    + simpl in Hn.
      destruct (Ascii.eqb c (ascii_of_nat 13)).
      * destruct r as [|x r'].
        -- constructor; [exact Hr|]. apply IH; simpl; [lia|reflexivity].
        -- destruct (Ascii.eqb x (ascii_of_nat 10)); constructor; auto;
             apply IH; simpl in *; auto; lia.
      * destruct (is_linebreak c) eqn:Hb.
        -- constructor; [exact Hr|]. apply IH; simpl; [lia|reflexivity].
        -- apply IH; [lia|]. simpl. now rewrite Hb.
Qed.

(** every URL read from the text box is non-empty, has no whitespace at
    either end and holds no line break. *)
Theorem urls_of_text_clean urls_text :
  Forall (fun u => u <> [] /\ first_not is_space u /\ last_not is_space u /\
                   forallb (fun c => negb (is_linebreak c)) u = true)
    (urls_of_text urls_text).
Proof.
  unfold urls_of_text, splitlines.
  pose proof (splitlines_go_nobreak (length urls_text) [] urls_text (le_n _) eq_refl) as H.
  apply Forall_map. apply Forall_forall. intros v Hv.
  apply filter_In in Hv as [Hin Hne].
  rewrite Forall_forall in H. specialize (H v Hin).
  repeat split.
  - destruct (strip v); [discriminate|discriminate].
  - apply first_not_rstrip, first_not_lstrip.
  - apply last_not_rstrip.
  - apply forallb_rstrip, forallb_lstrip, H.
Qed.

Lemma splitlines_go_line cur l rest :
  forallb (fun c => negb (is_linebreak c)) l = true ->
  splitlines_go cur (l ++ "010"%char :: rest) = (rev cur ++ l) :: splitlines_go [] rest.
Proof.
  revert cur. induction l as [|c r IH]; intros cur H; simpl.
  - now rewrite app_nil_r.
  - simpl in H. apply andb_prop in H as [Hc Hr]. apply negb_true_iff in Hc.
    assert (Hcr : Ascii.eqb c (ascii_of_nat 13) = false).
    { destruct (Ascii.eqb_spec c (ascii_of_nat 13)); [subst; discriminate|reflexivity]. }
    rewrite Hcr, Hc, IH by exact Hr. simpl. now rewrite <- app_assoc.
Qed.

Lemma splitlines_go_last cur l :
  forallb (fun c => negb (is_linebreak c)) l = true ->
  splitlines_go cur l = match cur ++ l with [] => [] | _ => [rev cur ++ l] end.
Proof.
  revert cur. induction l as [|c r IH]; intros cur H; simpl.
  - rewrite !app_nil_r. reflexivity.
  - simpl in H. apply andb_prop in H as [Hc Hr]. apply negb_true_iff in Hc.
    assert (Hcr : Ascii.eqb c (ascii_of_nat 13) = false).
    { destruct (Ascii.eqb_spec c (ascii_of_nat 13)); [subst; discriminate|reflexivity]. }
    rewrite Hcr, Hc, IH by exact Hr. simpl. rewrite <- app_assoc.
    destruct cur; reflexivity.
Qed.

(** the URL list is read line by line: the URLs of a text made of a
    first line, a newline and more text are the URL of the first line,
    if it is not blank, followed by the URLs of the rest. *)
Theorem urls_of_text_lines line rest :
  forallb (fun c => negb (is_linebreak c)) line = true ->
  urls_of_text (line ++ "010"%char :: rest) =
  match strip line with [] => [] | u => [u] end ++ urls_of_text rest.
Proof.
  intros H. unfold urls_of_text, splitlines.
  rewrite (splitlines_go_line [] line rest H). cbn [rev app filter map].
  destruct (strip line) eqn:E; cbn [filter map app]; rewrite ?E; reflexivity.
Qed.

Lemma urls_of_text_lines_witness :
  forallb (fun c => negb (is_linebreak c)) (lit " https://a ") = true /\
  urls_of_text (lit " https://a " ++ "010"%char :: lit "https://b") =
  match strip (lit " https://a ") with [] => [] | u => [u] end ++ urls_of_text (lit "https://b").
Proof.
  assert (H : forallb (fun c => negb (is_linebreak c)) (lit " https://a ") = true)
    by reflexivity.
  split; [exact H|]. exact (urls_of_text_lines _ _ H).
Defined.

(** ** The metadata cells of the report *)

(** a report that is written (no [add_run] raises) has one metadata
    cell per URL whose metadata could be fetched, in the order of the
    URLs, with the URL as its "Link:" value; every other URL gives one
    warning. *)
Theorem build_report_links fetch urls entries warnings :
  build_report fetch urls = (Ok entries, warnings) ->
  map (fun e => nth 2 e ([], [])) entries =
    map (fun u => (lit "Link:", u))
        (filter (fun u => match fetch u with Some _ => true | None => false end) urls) /\
  warnings = length (filter (fun u => match fetch u with Some _ => false | None => true end) urls).
Proof.
  revert entries warnings.
  induction urls as [|u rest IH]; intros entries warnings; cbn [build_report].
  - intros [= <- <-]. split; reflexivity.
  - destruct (fetch u) as [i|] eqn:Hu; cbn [map filter length]; rewrite Hu.
    + destruct (entry_ok (report_entry u i)); [|discriminate].
      destruct (build_report fetch rest) as [[es|x] w]; [|discriminate].
      intros [= <- <-]. destruct (IH es w eq_refl) as [IH1 IH2].
      unfold report_entry at 1. cbn [map nth]. split; [rewrite IH1; reflexivity|exact IH2].
    + destruct (build_report fetch rest) as [r w]. intros [= -> <-].
      destruct (IH entries w eq_refl) as [IH1 IH2].
      split; [exact IH1|rewrite IH2; reflexivity].
Qed.

Lemma build_report_links_witness :
  let fetch := fun u : pystr => if peqb u (lit "https://b") then None
                                else Some (mkrinfo (Some (lit "T")) None None PNone) in
  let urls := [lit "https://a"; lit "https://b"] in
  build_report fetch urls = (Ok [report_entry (lit "https://a")
                                   (mkrinfo (Some (lit "T")) None None PNone)], 1%nat) /\
  map (fun e => nth 2 e ([], [])) [report_entry (lit "https://a")
                                     (mkrinfo (Some (lit "T")) None None PNone)] =
    map (fun u => (lit "Link:", u))
        (filter (fun u => match fetch u with Some _ => true | None => false end) urls) /\
  1%nat = length (filter (fun u => match fetch u with Some _ => false | None => true end) urls).
Proof.
  cbv zeta.
  match goal with |- ?H /\ _ => assert (E : H) by reflexivity end.
  split; [exact E|]. exact (build_report_links _ _ _ _ E).
Defined.



